(** * Test-suite assembly pipeline of the Playwright test runner

    A shallow embedding of
    [packages/playwright-test/src/runner/loadUtils.ts]:
    [loadAllTests], [createProjectSuite], [createForbidOnlyErrors],
    [createDuplicateTitlesErrors] and [buildItemLocation].

    The functions this module imports from other modules of the runner
    ([collectFilesForProject], [filterProjects],
    [projectsThatAreDependencies], [filterForShard], the matchers, the
    suite filters, the loader host) are parameters of the development:
    every theorem of the [Pipeline] section holds for all of them.  The
    [Scenario] module at the end instantiates them to run the pipeline on
    concrete projects. *)

From stdpp Require Import base option list strings gmap pretty.

Set Default Proof Using "Type".
Local Open Scope string_scope.
Local Open Scope list_scope.

(** ** JavaScript containers with insertion order *)

(** [Map<K, V>]: iteration follows the order in which keys were first
    inserted; [set] on a present key replaces the value in place. *)
Module JsMap.
Section JsMap.
Context {K V : Type} `{EqDecision K}.

Definition t := list (K * V).

Definition empty : t := [].

Fixpoint get (m : t) (k : K) : option V :=
  match m with
  | [] => None
  | (k', v) :: m' => if decide (k' = k) then Some v else get m' k
  end.

Fixpoint set (m : t) (k : K) (v : V) : t :=
  match m with
  | [] => [(k, v)]
  | (k', v') :: m' =>
      if decide (k' = k) then (k', v) :: m' else (k', v') :: set m' k v
  end.

Definition delete (m : t) (k : K) : t :=
  filter (λ kv, kv.1 ≠ k) m.

Definition keys (m : t) : list K := m.*1.
Definition values (m : t) : list V := m.*2.

End JsMap.
Global Arguments t : clear implicits.
End JsMap.

(** [Set<T>]: [add] appends a value that is not yet a member, so iteration
    yields every distinct value once, in order of first insertion. *)
Module JsSet.
Section JsSet.
Context {T : Type} `{EqDecision T}.

Definition add (s : list T) (x : T) : list T :=
  if decide (x ∈ s) then s else s ++ [x].

Definition addAll (s : list T) (xs : list T) : list T :=
  foldl add s xs.

End JsSet.
End JsSet.

(** ** Data model *)

(** The double quote character of the messages. *)
Definition dquote : string := String (Ascii.ascii_of_nat 34) EmptyString.

(** A [RegExp] is carried around but only interpreted by
    [createTitleMatcher]; it is represented by its source text. *)
Definition RegExp := string.

(** [Matcher = (value: string) => boolean] *)
Definition Matcher := string → bool.

Record Location := { file : string; line : nat; column : nat }.

(** [TestError], with the two members this module writes. *)
Record TestError := { message : string; location : option Location }.

(** [FullProjectInternal], with the members this module reads.  The
    projects of one configuration are told apart by these members (project
    names are unique), so equality of records stands for identity of the
    project objects used as [Map] keys. *)
Record FullProjectInternal := {
  name : string;
  repeatEach : nat;
  _fullyParallel : bool;
  grep : list RegExp;
  grepInvert : option (list RegExp);
}.

Global Instance FullProjectInternal_eq_dec : EqDecision FullProjectInternal.
Proof. solve_decision. Defined.

(** [TestCase] as this module observes it: [test_titlePath] is the value
    of [test.titlePath()], computed in [../common/test] from the chain of
    parents, [test_location] is [test.location]; [test_only] is the focus
    mark [_only]. *)
Record TestCase := {
  test_titlePath : list string;
  test_location : Location;
  test_only : bool;
}.

(** An element of [(TestCase | Suite)[]] as [createForbidOnlyErrors]
    observes it: the value of [titlePath()] and the member [location]. *)
Record TestOrSuite := {
  item_titlePath : list string;
  item_location : option Location;
}.

Inductive SuiteType := TRoot | TProject | TFile | TDescribe.
Inductive ParallelMode := PMdefault | PMserial | PMparallel.

Local Unset Elimination Schemes.
(** [Suite]: the members this module reads or writes, the focus mark and
    the children [_entries : (Suite | TestCase)[]]. *)
Inductive Suite := mkSuite {
  title : string;
  _type : SuiteType;
  _requireFile : string;
  _projectConfig : option FullProjectInternal;
  _parallelMode : ParallelMode;
  _only : bool;
  _entries : list (Suite + TestCase);
}.
Local Set Elimination Schemes.

(** Modelled from the spec: the constructor and the two attaching methods
    of [Suite], a class declared in [../common/test].
    [new Suite(title, type)] has no children; [_addSuite] attaches a child
    after the existing ones, [_prependSuite] inserts it before them. *)
Definition newSuite (title : string) (type : SuiteType) : Suite :=
  {| title := title; _type := type; _requireFile := EmptyString;
     _projectConfig := None; _parallelMode := PMdefault; _only := false;
     _entries := [] |}.

Definition with_entries (s : Suite) (es : list (Suite + TestCase)) : Suite :=
  {| title := title s; _type := _type s; _requireFile := _requireFile s;
     _projectConfig := _projectConfig s; _parallelMode := _parallelMode s;
     _only := _only s; _entries := es |}.

Definition with_projectConfig (s : Suite) (project : FullProjectInternal)
    : Suite :=
  {| title := title s; _type := _type s; _requireFile := _requireFile s;
     _projectConfig := Some project; _parallelMode := _parallelMode s;
     _only := _only s; _entries := _entries s |}.

Definition with_parallelMode (s : Suite) (mode : ParallelMode) : Suite :=
  {| title := title s; _type := _type s; _requireFile := _requireFile s;
     _projectConfig := _projectConfig s; _parallelMode := mode;
     _only := _only s; _entries := _entries s |}.

Definition _addSuite (parent child : Suite) : Suite :=
  with_entries parent (_entries parent ++ [inl child]).

Definition _prependSuite (parent child : Suite) : Suite :=
  with_entries parent (inl child :: _entries parent).

(** [suite.suites]: the children that are suites, in order. *)
Definition suites (s : Suite) : list Suite :=
  omap (λ e, match e with inl c => Some c | inr _ => None end) (_entries s).

(** ** Effects *)

(** An awaited call either returns or throws (a rejected promise). *)
Inductive Outcome (A : Type) := Returned (a : A) | Thrown (e : string).
Global Arguments Returned {A} a.
Global Arguments Thrown {A} e.

Global Instance Outcome_ret : MRet Outcome := λ A a, Returned a.
Global Instance Outcome_bind : MBind Outcome := λ A B f m,
  match m with Returned a => f a | Thrown e => Thrown e end.

(** What a run of [loadAllTests] leaves behind: the [errors] array it was
    handed and the calls made on the loader host, oldest first. *)
Inductive LoaderCall := LoadTestFile (file : string) | Stop.

Global Instance LoaderCall_eq_dec : EqDecision LoaderCall.
Proof. solve_decision. Defined.

Record World := { errors : list TestError; calls : list LoaderCall }.

Definition Run (A : Type) : Type := World → Outcome A * World.

Global Instance Run_ret : MRet Run := λ A a w, (Returned a, w).
Global Instance Run_bind : MBind Run := λ A B f m w,
  match m w with
  | (Returned a, w') => f a w'
  | (Thrown e, w') => (Thrown e, w')
  end.

Definition lift {A} (o : Outcome A) : Run A := λ w, (o, w).

(** [errors.push(...es)] *)
Definition errors_push (es : list TestError) : Run unit := λ w,
  (Returned (), {| errors := errors w ++ es; calls := calls w |}).

Definition record_call (c : LoaderCall) (w : World) : World :=
  {| errors := errors w; calls := calls w ++ [c] |}.

(** Number of [stop()] calls and of [loadTestFile(file, _)] calls. *)
Definition stops (cs : list LoaderCall) : nat :=
  length (filter (λ c, c = Stop) cs).
Definition loads (cs : list LoaderCall) (file : string) : nat :=
  length (filter (λ c, c = LoadTestFile file) cs).

(** ** Configuration and options *)

(** [FullConfigInternal] and [LoadOptions], with the members this module
    reads.  [Shard] and [TestFileFilter] are declared in other modules. *)
Record FullConfigInternal (Shard : Type) := {
  projects : list FullProjectInternal;
  shard : option Shard;
  forbidOnly : bool;
  rootDir : string;
}.
Global Arguments projects {Shard} _.
Global Arguments shard {Shard} _.
Global Arguments forbidOnly {Shard} _.
Global Arguments rootDir {Shard} _.

Record LoadOptions (TestFileFilter : Type) := {
  listOnly : bool;
  testFileFilters : list TestFileFilter;
  testTitleMatcher : option Matcher;
  projectFilter : option (list string);
  passWithNoTests : option bool;
}.
Global Arguments listOnly {TestFileFilter} _.
Global Arguments testFileFilters {TestFileFilter} _.
Global Arguments testTitleMatcher {TestFileFilter} _.
Global Arguments projectFilter {TestFileFilter} _.
Global Arguments passWithNoTests {TestFileFilter} _.

Abbreviation FilesByProject := (JsMap.t FullProjectInternal (list string)).

(** ** Imported functions *)

(** What [loadUtils.ts] imports from the rest of the runner.  The types
    are [TestFileFilter] ([../util]), the shard description of the
    configuration, the file-system cache handed to
    [collectFilesForProject] and the loader host ([./loaderHost]).  The
    pipeline and its theorems are stated for every instance. *)
Class Imports (TestFileFilter Shard FsCache LoaderHost : Type) := {
  (** [./projectUtils]; [filterProjects] throws when a name of the
      project filter names no project *)
  filterProjects :
    list FullProjectInternal → option (list string) →
    Outcome (list FullProjectInternal);
  collectFilesForProject :
    FullProjectInternal → FsCache → Outcome (list string) * FsCache;
  projectsThatAreDependencies :
    list FullProjectInternal → list FullProjectInternal;
  (** [new Map()], the empty cache *)
  newFsCache : FsCache;
  (** [../util] *)
  createFileMatcherFromFilters : list TestFileFilter → Matcher;
  createTitleMatcher : list RegExp → Matcher;
  (** [./testGroups] *)
  filterForShard : Shard → FilesByProject → FilesByProject;
  (** [./loaderHost]: the environment toggle, the two constructors and the
      two methods of the interface.  [loadTestFile] is handed the [errors]
      array and may write to it; both methods may update the host. *)
  PW_TEST_OOP_LOADER : bool;
  OutOfProcessLoaderHost : FullConfigInternal Shard → LoaderHost;
  InProcessLoaderHost : FullConfigInternal Shard → LoaderHost;
  loadTestFile :
    LoaderHost → string → list TestError →
    Outcome Suite * list TestError * LoaderHost;
  stop : LoaderHost → Outcome unit * LoaderHost;
  (** [../common/test]: methods of [Suite] that walk the tree *)
  allTests : Suite → list TestCase;
  _getOnlyItems : Suite → list TestOrSuite;
  (** [../common/suiteUtils]; the functions that update a suite in place
      return the updated suite, and a built suite is a clone: the loaded
      file suites are never updated *)
  buildFileSuiteForProject : FullProjectInternal → Suite → nat → Suite;
  filterByFocusedLine : Suite → list TestFileFilter → Suite;
  filterTestsRemoveEmptySuites : Suite → (TestCase → bool) → bool * Suite;
  filterOnly : Suite → Suite;
  (** [path.relative] of Node.js *)
  path_relative : string → string → string;
}.

(** ** The pipeline *)

Section Pipeline.
Context {TestFileFilter Shard FsCache LoaderHost : Type}.
Context {imports : Imports TestFileFilter Shard FsCache LoaderHost}.

Implicit Types (config : FullConfigInternal Shard)
               (options : LoadOptions TestFileFilter).

(** *** Collect files, categorize top level and dependency projects
    (lines 45-80) *)

(** [for (const project of projects) allFilesForProject.set(project,
    await collectFilesForProject(project, fsCache))] *)
Fixpoint collectAllFiles (projects : list FullProjectInternal)
    (fsCache : FsCache) (allFilesForProject : FilesByProject)
    : Outcome (FilesByProject * FsCache) :=
  match projects with
  | [] => Returned (allFilesForProject, fsCache)
  | project :: rest =>
      match collectFilesForProject project fsCache with
      | (Returned files, fsCache') =>
          collectAllFiles rest fsCache'
            (JsMap.set allFilesForProject project files)
      | (Thrown e, _) => Thrown e
      end
  end.

(** Filter files based on the file filters, eliminate the empty
    projects. *)
Definition filterFiles (commandLineFileMatcher : option Matcher)
    (allFilesForProject : FilesByProject) : FilesByProject :=
  foldl (λ filesToRunByProject '(project, files),
           let filteredFiles :=
             match commandLineFileMatcher with
             | Some matcher => List.filter matcher files
             | None => files
             end in
           if bool_decide (filteredFiles = []) then filesToRunByProject
           else JsMap.set filesToRunByProject project filteredFiles)
        JsMap.empty allFilesForProject.

(** [for (const project of ps) filesToRunByProject.delete(project)] *)
Definition deleteAll (filesToRunByProject : FilesByProject)
    (ps : list FullProjectInternal) : FilesByProject :=
  foldl JsMap.delete filesToRunByProject ps.

(** (Re-)add all files for dependent projects, disregard filters. *)
Fixpoint addDependencyFiles (dependencyProjects : list FullProjectInternal)
    (allFilesForProject : FilesByProject) (fsCache : FsCache)
    (filesToRunByProject : FilesByProject) : Outcome FilesByProject :=
  match dependencyProjects with
  | [] => Returned filesToRunByProject
  | project :: rest =>
      match JsMap.get allFilesForProject project with
      | Some files =>
          addDependencyFiles rest allFilesForProject fsCache
            (JsMap.set filesToRunByProject project files)
      | None =>
          match collectFilesForProject project fsCache with
          | (Returned files, fsCache') =>
              addDependencyFiles rest allFilesForProject fsCache'
                (JsMap.set filesToRunByProject project files)
          | (Thrown e, _) => Thrown e
          end
      end
  end.

(** The variables that are live after the first block. *)
Record Resolved := {
  allFilesForProject : FilesByProject;
  filesToRunByProject : FilesByProject;
  topLevelProjects : list FullProjectInternal;
  dependencyProjects : list FullProjectInternal;
}.

Definition resolveFiles config options : Outcome Resolved :=
  projects ← filterProjects (projects config) (projectFilter options);
  '(allFilesForProject, fsCache) ←
    collectAllFiles projects newFsCache JsMap.empty;
  let commandLineFileMatcher :=
    if bool_decide (testFileFilters options = []) then None
    else Some (createFileMatcherFromFilters (testFileFilters options)) in
  let filesToRunByProject :=
    filterFiles commandLineFileMatcher allFilesForProject in
  let filesToRunByProject :=
    deleteAll filesToRunByProject
      (projectsThatAreDependencies (JsMap.keys filesToRunByProject)) in
  let filesToRunByProject :=
    match shard config with
    | Some s => filterForShard s filesToRunByProject
    | None => filesToRunByProject
    end in
  let topLevelProjects := JsMap.keys filesToRunByProject in
  let dependencyProjects := projectsThatAreDependencies topLevelProjects in
  filesToRunByProject ←
    addDependencyFiles dependencyProjects allFilesForProject fsCache
      filesToRunByProject;
  mret {| allFilesForProject := allFilesForProject;
          filesToRunByProject := filesToRunByProject;
          topLevelProjects := topLevelProjects;
          dependencyProjects := dependencyProjects |}.

(** *** Load all test files (lines 82-94) *)

(** [await loaderHost.loadTestFile(file, errors)] *)
Definition call_loadTestFile (loaderHost : LoaderHost) (file : string)
    : Run (Suite * LoaderHost) := λ w,
  let '(r, errs, loaderHost') := loadTestFile loaderHost file (errors w) in
  let w' := record_call (LoadTestFile file)
              {| errors := errs; calls := calls w |} in
  match r with
  | Returned fileSuite => (Returned (fileSuite, loaderHost'), w')
  | Thrown e => (Thrown e, w')
  end.

(** [await loaderHost.stop()] *)
Definition call_stop (loaderHost : LoaderHost) : Run unit := λ w,
  (fst (stop loaderHost), record_call Stop w).

(** [for (const file of allTestFiles) fileSuits.push(await
    loaderHost.loadTestFile(file, errors))] *)
Fixpoint loadEach (loaderHost : LoaderHost) (allTestFiles : list string)
    (fileSuits : list Suite) : Run (list Suite * LoaderHost) :=
  match allTestFiles with
  | [] => mret (fileSuits, loaderHost)
  | file :: rest =>
      '(fileSuite, loaderHost') ← call_loadTestFile loaderHost file;
      loadEach loaderHost' rest (fileSuits ++ [fileSuite])
  end.

(** [for (const files of filesToRunByProject.values())
    files.forEach(file => allTestFiles.add(file))] *)
Definition allTestFiles (filesToRunByProject : FilesByProject)
    : list string :=
  foldl JsSet.addAll [] (JsMap.values filesToRunByProject).

Definition loadFileSuites config (filesToRunByProject : FilesByProject)
    : Run (list Suite) :=
  let loaderHost : LoaderHost :=
    if PW_TEST_OOP_LOADER then OutOfProcessLoaderHost config
    else InProcessLoaderHost config in
  '(fileSuits, loaderHost) ←
    loadEach loaderHost (allTestFiles filesToRunByProject) [];
  call_stop loaderHost;;
  mret fileSuits.

(** *** [buildItemLocation] (lines 199-203) *)

Definition buildItemLocation (rootDir : string)
    (location : option Location) : string :=
  match location with
  | None => EmptyString
  | Some l => path_relative rootDir (file l) +:+ ":" +:+ pretty (line l)
  end.

(** *** [createDuplicateTitlesErrors] (lines 179-197) *)

(** The body of the loop over [fileSuite.allTests()]; the state is
    [testsByFullTitle] and [errors]. *)
Definition duplicateTitlesStep config
    (st : gmap string TestCase * list TestError) (test : TestCase)
    : gmap string TestCase * list TestError :=
  let '(testsByFullTitle, errors) := st in
  let fullTitle := String.concat " › " (drop 1 (test_titlePath test)) in
  let errors :=
    match testsByFullTitle !! fullTitle with
    | Some existingTest =>
        errors ++
        [{| message :=
              "Error: duplicate test title " +:+ dquote +:+ fullTitle +:+
              dquote +:+ ", first declared in " +:+
              buildItemLocation (rootDir config)
                (Some (test_location existingTest));
            location := Some (test_location test) |}]
    | None => errors
    end in
  (<[fullTitle := test]> testsByFullTitle, errors).

Definition createDuplicateTitlesErrors config (fileSuites : list Suite)
    : list TestError :=
  foldl (λ errors fileSuite,
           (foldl (duplicateTitlesStep config) (∅, errors)
              (allTests fileSuite)).2)
        [] fileSuites.

(** *** [createForbidOnlyErrors] (lines 165-177) *)

Definition forbidOnlyError (testOrSuite : TestOrSuite) : TestError :=
  (* Skip root and file. *)
  let title := String.concat " " (drop 2 (item_titlePath testOrSuite)) in
  {| message :=
       "Error: focused item found in the --forbid-only mode: " +:+
       dquote +:+ title +:+ dquote;
     location := item_location testOrSuite |}.

Definition createForbidOnlyErrors (onlyTestsAndSuites : list TestOrSuite)
    : list TestError :=
  foldl (λ errors testOrSuite, errors ++ [forbidOnlyError testOrSuite])
        [] onlyTestsAndSuites.

(** *** [createProjectSuite] (lines 129-163) *)

(** The closure [titleMatcher] of [createProjectSuite]. *)
Definition titleMatcher (project : FullProjectInternal) options
    (test : TestCase) : bool :=
  let grepMatcher := createTitleMatcher (grep project) in
  let grepInvertMatcher :=
    match grepInvert project with
    | Some patterns => Some (createTitleMatcher patterns)
    | None => None
    end in
  let grepTitle := String.concat " " (test_titlePath test) in
  if match grepInvertMatcher with
     | Some matcher => matcher grepTitle
     | None => false
     end
  then false
  else grepMatcher grepTitle &&
       match testTitleMatcher options with
       | None => true
       | Some matcher => matcher grepTitle
       end.

(** The project suite before any filtering: one built suite per file
    that was loaded and per repeat index. *)
Definition unfilteredProjectSuite (fileSuits : list Suite)
    (project : FullProjectInternal) (files : list string) : Suite :=
  let fileSuitesMap : gmap string Suite :=
    foldl (λ m fileSuite, <[_requireFile fileSuite := fileSuite]> m)
          ∅ fileSuits in
  let projectSuite := newSuite (name project) TProject in
  let projectSuite := with_projectConfig projectSuite project in
  let projectSuite :=
    if _fullyParallel project
    then with_parallelMode projectSuite PMparallel
    else projectSuite in
  foldl (λ projectSuite file,
           match fileSuitesMap !! file with
           | None => projectSuite
           | Some fileSuite =>
               foldl (λ projectSuite repeatEachIndex,
                        _addSuite projectSuite
                          (buildFileSuiteForProject project fileSuite
                             repeatEachIndex))
                     projectSuite (seq 0 (repeatEach project))
           end)
        projectSuite files.

Definition createProjectSuite (fileSuits : list Suite)
    (project : FullProjectInternal) options (files : list string)
    : option Suite :=
  let projectSuite := unfilteredProjectSuite fileSuits project files in
  (* Filter tests to respect line/column filter. *)
  let projectSuite :=
    filterByFocusedLine projectSuite (testFileFilters options) in
  let '(nonEmpty, projectSuite) :=
    filterTestsRemoveEmptySuites projectSuite
      (titleMatcher project options) in
  if nonEmpty then Some projectSuite else None.

(** *** [loadAllTests] (lines 39-127) *)

(** [{ ...options, testFileFilters: [], testTitleMatcher: undefined }] *)
Definition dependencyOptions options : LoadOptions TestFileFilter :=
  {| listOnly := listOnly options; testFileFilters := [];
     testTitleMatcher := None; projectFilter := projectFilter options;
     passWithNoTests := passWithNoTests options |}.

(** One round of either loop over projects: compose the project suite
    from [filesToRunByProject.get(project)!] and attach it unless it is
    null.  Iterating an absent file list is a [TypeError]. *)
Definition attachProjectSuite (attach : Suite → Suite → Suite)
    (fileSuits : list Suite) options (filesToRunByProject : FilesByProject)
    (rootSuite : Suite) (project : FullProjectInternal) : Outcome Suite :=
  match JsMap.get filesToRunByProject project with
  | None => Thrown "TypeError: files is not iterable"
  | Some files =>
      match createProjectSuite fileSuits project options files with
      | Some projectSuite => Returned (attach rootSuite projectSuite)
      | None => Returned rootSuite
      end
  end.

Fixpoint attachProjectSuites (attach : Suite → Suite → Suite)
    (fileSuits : list Suite) options (filesToRunByProject : FilesByProject)
    (rootSuite : Suite) (ps : list FullProjectInternal) : Outcome Suite :=
  match ps with
  | [] => Returned rootSuite
  | project :: rest =>
      rootSuite ← attachProjectSuite attach fileSuits options
                    filesToRunByProject rootSuite project;
      attachProjectSuites attach fileSuits options filesToRunByProject
        rootSuite rest
  end.

(** First iterate leaf projects to focus only (lines 99-107). *)
Definition composeTopLevel options (r : Resolved)
    (fileSuits : list Suite) : Outcome Suite :=
  attachProjectSuites _addSuite fileSuits options (filesToRunByProject r)
    (newSuite EmptyString TRoot) (topLevelProjects r).

(** Complain about only (lines 109-114). *)
Definition complainAboutOnly config (rootSuite : Suite) : Run unit :=
  if forbidOnly config then
    let onlyTestsAndSuites := _getOnlyItems rootSuite in
    if bool_decide (0 < length onlyTestsAndSuites)
    then errors_push (createForbidOnlyErrors onlyTestsAndSuites)
    else mret ()
  else mret ().

(** Prepend the projects that are dependencies (lines 119-124). *)
Definition prependDependencies options (r : Resolved)
    (fileSuits : list Suite) (rootSuite : Suite) : Outcome Suite :=
  attachProjectSuites _prependSuite fileSuits (dependencyOptions options)
    (filesToRunByProject r) rootSuite (dependencyProjects r).

(** Lines 96-126: what follows the loading of the files. *)
Definition assembleRoot config options (r : Resolved)
    (fileSuits : list Suite) : Run Suite :=
  (* Complain about duplicate titles. *)
  errors_push (createDuplicateTitlesErrors config fileSuits);;
  rootSuite ← lift (composeTopLevel options r fileSuits);
  complainAboutOnly config rootSuite;;
  (* Filter only for leaf projects. *)
  let rootSuite := filterOnly rootSuite in
  rootSuite ← lift (prependDependencies options r fileSuits rootSuite);
  mret rootSuite.

Definition loadAllTests config options : Run Suite :=
  r ← lift (resolveFiles config options);
  fileSuits ← loadFileSuites config (filesToRunByProject r);
  assembleRoot config options r fileSuits.

(** *** Notions used to state the properties *)

(** The project suites a loop over [ps] attaches, in the order of [ps]:
    the results of [createProjectSuite] that are not null. *)
Definition projectSuites options (filesToRunByProject : FilesByProject)
    (fileSuits : list Suite) (ps : list FullProjectInternal) : list Suite :=
  omap (λ project,
          files ← JsMap.get filesToRunByProject project;
          createProjectSuite fileSuits project options files)
       ps.

Definition topLevelSuites options (r : Resolved) (fileSuits : list Suite)
    : list Suite :=
  projectSuites options (filesToRunByProject r) fileSuits
    (topLevelProjects r).

Definition dependencySuites options (r : Resolved)
    (fileSuits : list Suite) : list Suite :=
  projectSuites (dependencyOptions options) (filesToRunByProject r)
    fileSuits (dependencyProjects r).

(** The errors of the forbid-only check over [rootSuite]. *)
Definition forbidOnlyErrors config (rootSuite : Suite) : list TestError :=
  if forbidOnly config
  then List.map forbidOnlyError (_getOnlyItems rootSuite)
  else [].

(** [file] is in the file list of some project of the map. *)
Definition inSomeFileList (m : FilesByProject) (file : string) : Prop :=
  ∃ project files, (project, files) ∈ m ∧ file ∈ files.

(** [files] is what [collectFilesForProject] returns for [project], for
    some state of the cache. *)
Definition Collected (project : FullProjectInternal) (files : list string)
    : Prop :=
  ∃ fsCache : FsCache,
    (collectFilesForProject project fsCache).1 = Returned files.

(** The loader host of a run. *)
Definition newLoaderHost config : LoaderHost :=
  if PW_TEST_OOP_LOADER then OutOfProcessLoaderHost config
  else InProcessLoaderHost config.

(** The run reaches the loading phase and every [loadTestFile] call
    returns. *)
Definition LoadingCompletes config options (w : World) : Prop :=
  ∃ r fileSuits loaderHost w1,
    resolveFiles config options = Returned r ∧
    loadEach (newLoaderHost config)
      (allTestFiles (filesToRunByProject r)) [] w
    = (Returned (fileSuits, loaderHost), w1).

(** The intermediate values of a run that returns [root]: the resolved
    files, the loaded file suites, the state after loading and the root
    suite with the top-level project suites before the only-filter. *)
Definition Stages config options (w : World) (r : Resolved)
    (fileSuits : list Suite) (w1 : World) (topRoot root : Suite) : Prop :=
  resolveFiles config options = Returned r ∧
  loadFileSuites config (filesToRunByProject r) w
  = (Returned fileSuits, w1) ∧
  composeTopLevel options r fileSuits = Returned topRoot ∧
  prependDependencies options r fileSuits (filterOnly topRoot)
  = Returned root.

(** The resolved files with the dependency projects struck out of the
    list the last loop iterates. *)
Definition withoutDependencies (r : Resolved) : Resolved :=
  {| allFilesForProject := allFilesForProject r;
     filesToRunByProject := filesToRunByProject r;
     topLevelProjects := topLevelProjects r;
     dependencyProjects := [] |}.

(** The two project matchers applied to the joined title path. *)
Definition grepMatches (project : FullProjectInternal) (grepTitle : string)
    : bool :=
  createTitleMatcher (grep project) grepTitle.

Definition grepInvertMatches (project : FullProjectInternal)
    (grepTitle : string) : bool :=
  match grepInvert project with
  | Some patterns => createTitleMatcher patterns grepTitle
  | None => false
  end.

(** What [filterTestsRemoveEmptySuites] is relied on for: the tests of
    the suite it leaves all satisfy the predicate. *)
Definition FilterKeepsMatching : Prop :=
  ∀ (s s' : Suite) (keep : TestCase → bool) (nonEmpty : bool),
    filterTestsRemoveEmptySuites s keep = (nonEmpty, s') →
    ∀ t, t ∈ allTests s' → keep t = true.
End Pipeline.

(** ** Further notions used to state properties *)

Section PipelineNotions.
Context {TestFileFilter Shard FsCache LoaderHost : Type}.
Context {imports : Imports TestFileFilter Shard FsCache LoaderHost}.

Implicit Types (config : FullConfigInternal Shard)
               (options : LoadOptions TestFileFilter).

(** The matcher of line 57, [null] without file filters. *)
Definition commandLineFileMatcher options : option Matcher :=
  if bool_decide (testFileFilters options = []) then None
  else Some (createFileMatcherFromFilters (testFileFilters options)).

(** [files.filter(commandLineFileMatcher)], or [files] without matcher. *)
Definition matchingFiles (matcher : option Matcher) (files : list string)
    : list string :=
  match matcher with
  | Some m => List.filter m files
  | None => files
  end.

(** One round of the loop of lines 58-62 keeps a project with its
    matching files, or drops it. *)
Definition keepMatching (matcher : option Matcher)
    (entry : FullProjectInternal * list string)
    : option (FullProjectInternal * list string) :=
  match matchingFiles matcher entry.2 with
  | [] => None
  | files => Some (entry.1, files)
  end.

(** The map of line 65, after the dependency projects are removed: what
    [filterForShard] is handed when the configuration has a shard. *)
Definition shardInput options (allFilesForProject : FilesByProject)
    : FilesByProject :=
  let filtered :=
    filterFiles (commandLineFileMatcher options) allFilesForProject in
  deleteAll filtered (projectsThatAreDependencies (JsMap.keys filtered)).

(** The title under which [createDuplicateTitlesErrors] files a test. *)
Definition fullTitle (test : TestCase) : string :=
  String.concat " › " (drop 1 (test_titlePath test)).

(** The error for [test] when [existingTest] is filed under its title. *)
Definition duplicateTitleError config (existingTest test : TestCase)
    : TestError :=
  {| message :=
       "Error: duplicate test title " +:+ dquote +:+ fullTitle test +:+
       dquote +:+ ", first declared in " +:+
       buildItemLocation (rootDir config) (Some (test_location existingTest));
     location := Some (test_location test) |}.

(** The file suite [fileSuitesMap.get(file)] finds: the last of the
    loaded suites that was required from [file]. *)
Definition fileSuiteFor (fileSuits : list Suite) (file : string)
    : option Suite :=
  last (filter (λ fileSuite, _requireFile fileSuite = file) fileSuits).

(** The suites [createProjectSuite] builds for one file: one per repeat
    index, none when no suite was loaded for the file. *)
Definition builtSuites (fileSuits : list Suite)
    (project : FullProjectInternal) (file : string) : list Suite :=
  match fileSuiteFor fileSuits file with
  | Some fileSuite =>
      buildFileSuiteForProject project fileSuite <$> seq 0 (repeatEach project)
  | None => []
  end.

(** The suite of [project] as the title filter of line 160 receives it:
    the built suites, filtered by focused line. *)
Definition focusedProjectSuite (fileSuits : list Suite)
    (project : FullProjectInternal) options (files : list string) : Suite :=
  filterByFocusedLine (unfilteredProjectSuite fileSuits project files)
    (testFileFilters options).

(** The tests [createProjectSuite] retains: those of the suite it
    returns, none when it returns null. *)
Definition retainedTests (projectSuite : option Suite) : list TestCase :=
  match projectSuite with
  | Some s => allTests s
  | None => []
  end.

(** What [filterTestsRemoveEmptySuites] does with the tests of a suite:
    the suite it leaves holds the tests that satisfy the predicate and no
    other test, and the result is false only when no test is left. *)
Definition FilterKeepsExactlyMatching : Prop :=
  ∀ (s s' : Suite) (keep : TestCase → bool) (nonEmpty : bool),
    filterTestsRemoveEmptySuites s keep = (nonEmpty, s') →
    (∀ t, t ∈ allTests s' ↔ t ∈ allTests s ∧ keep t = true) ∧
    (nonEmpty = false → allTests s' = []).

(** An item with one more segment in front of its title path. *)
Definition prefixed (segment : string) (item : TestOrSuite) : TestOrSuite :=
  {| item_titlePath := segment :: item_titlePath item;
     item_location := item_location item |}.

(** A focused test as an item of its parent: the title path is the
    test's own title, the last segment of the path the test carries. *)
Definition focusedTestItem (test : TestCase) : TestOrSuite :=
  {| item_titlePath := option_list (last (test_titlePath test));
     item_location := Some (test_location test) |}.

(** The focused items below [parent], with title paths that start
    below [parent]: the items of a child suite, and the focused tests
    among the children. *)
Definition itemsBelow (parent : Suite) : list TestOrSuite :=
  List.flat_map
    (λ e, match e with
          | inl child => _getOnlyItems child
          | inr test => if test_only test then [focusedTestItem test] else []
          end)
    (_entries parent).

(** What [titlePath()] is relied on for, seen through [_getOnlyItems]:
    a title path lists the titles from the top of the tree down to the
    item.  The items of a suite are the suite itself, when it is focused,
    and the items below it with the title of the suite in front.  A
    describe block may add no segment (it adds none when it has no
    title), so this is asked of the other suites only. *)
Definition TitlePathsFollowParents : Prop :=
  ∀ (parent : Suite) (item : TestOrSuite),
    _type parent ≠ TDescribe →
    item ∈ _getOnlyItems parent →
    (_only parent = true ∧ item_titlePath item = [title parent]) ∨
    ∃ below, below ∈ itemsBelow parent ∧ item = prefixed (title parent) below.

(** The two filters of [createProjectSuite] update the children of the
    suite they are handed: the suite keeps its title and its type. *)
Definition FiltersKeepTitleAndType : Prop :=
  (∀ (s : Suite) (filters : list TestFileFilter),
     title (filterByFocusedLine s filters) = title s ∧
     _type (filterByFocusedLine s filters) = _type s) ∧
  (∀ (s : Suite) (keep : TestCase → bool),
     title (filterTestsRemoveEmptySuites s keep).2 = title s ∧
     _type (filterTestsRemoveEmptySuites s keep).2 = _type s).
End PipelineNotions.

(** ** Loading a global hook or a reporter (lines 205-220) *)

(** A JavaScript value as [requireOrImportDefaultFunction] can tell
    values apart: by truthiness, by [typeof], and for an object by its
    properties, read as data properties.  Integers stand for numbers and
    a function is known by a name. *)
Local Unset Elimination Schemes.
Inductive JsValue :=
| JsUndefined
| JsNull
| JsBoolean (b : bool)
| JsNumber (n : Z)
| JsString (s : string)
| JsFunction (f : string)
| JsObject (properties : list (string * JsValue)).
Local Set Elimination Schemes.

Inductive JsType :=
  TUndefined | TObject | TBoolean | TNumber | TString | TFunction.

Global Instance JsType_eq_dec : EqDecision JsType.
Proof. solve_decision. Defined.

(** [typeof v] *)
Definition typeof (v : JsValue) : JsType :=
  match v with
  | JsUndefined => TUndefined
  | JsNull => TObject
  | JsBoolean _ => TBoolean
  | JsNumber _ => TNumber
  | JsString _ => TString
  | JsFunction _ => TFunction
  | JsObject _ => TObject
  end.

(** The value as a condition. *)
Definition truthy (v : JsValue) : bool :=
  match v with
  | JsUndefined | JsNull => false
  | JsBoolean b => b
  | JsNumber n => negb (Z.eqb n 0)
  | JsString s => negb (String.eqb s EmptyString)
  | JsFunction _ | JsObject _ => true
  end.

(** [key in v] and [v[key]] for an object [v]. *)
Definition hasProperty (key : string) (v : JsValue) : bool :=
  match v with
  | JsObject properties => bool_decide (is_Some (JsMap.get properties key))
  | _ => false
  end.

Definition getProperty (v : JsValue) (key : string) : JsValue :=
  match v with
  | JsObject properties => default JsUndefined (JsMap.get properties key)
  | _ => JsUndefined
  end.

(** What these functions import: [requireOrImport] of
    [../common/transform], [errorWithFile] of [../util], whose error is
    represented by the text thrown, and [path.resolve] of Node.js. *)
Class ModuleImports := {
  requireOrImport : string → Outcome JsValue;
  errorWithFile : string → string → string;
  path_resolve : string → string → string;
}.

Section HookLoading.
Context {Shard : Type} {moduleImports : ModuleImports}.

Implicit Types (config : FullConfigInternal Shard).

Definition requireOrImportDefaultFunction (file : string)
    (expectConstructor : bool) : Outcome JsValue :=
  func ← requireOrImport file;
  let func :=
    if truthy func && bool_decide (typeof func = TObject)
       && hasProperty "default" func
    then getProperty func "default"
    else func in
  if bool_decide (typeof func ≠ TFunction)
  then Thrown (errorWithFile file
                 ("file must export a single " +:+
                  (if expectConstructor then "class" else "function") +:+
                  "."))
  else Returned func.

Definition loadGlobalHook config (file : string) : Outcome JsValue :=
  requireOrImportDefaultFunction (path_resolve (rootDir config) file) false.

Definition loadReporter config (file : string) : Outcome JsValue :=
  requireOrImportDefaultFunction (path_resolve (rootDir config) file) true.
End HookLoading.

(** ** A worked configuration

    A small instance of the imported functions and a configuration with
    five projects, used to run the pipeline on concrete inputs.  Patterns
    match by containment, file filters by exact path, and a test of a
    loaded file carries its title path from the file suite down. *)
Module Scenario.

(** *** Walking suites *)

Fixpoint allTests (s : Suite) : list TestCase :=
  List.flat_map
    (λ e, match e with inl c => allTests c | inr t => [t] end)
    (_entries s).

(** The focused items of [s]: the suite itself, the items of its child
    suites, then its focused tests.  Title paths start at [s] and follow
    the parents: every suite on the way adds its title, except a describe
    block without title. *)
Fixpoint _getOnlyItems (s : Suite) : list TestOrSuite :=
  let items :=
    (if _only s
     then [{| item_titlePath := []; item_location := None |}]
     else []) ++
    List.flat_map
      (λ e, match e with inl c => _getOnlyItems c | inr _ => [] end)
      (_entries s) ++
    List.flat_map
      (λ e, match e with
            | inl _ => []
            | inr t => if test_only t then [focusedTestItem t] else []
            end)
      (_entries s) in
  match _type s, title s with
  | TDescribe, EmptyString => items
  | _, _ => prefixed (title s) <$> items
  end.

(** Keep the tests that satisfy [keep] and the suites that still hold a
    test. *)
Fixpoint filterTests (keep : TestCase → bool) (s : Suite) : Suite :=
  with_entries s
    (omap
       (λ e, match e with
             | inl c =>
                 let c' := filterTests keep c in
                 match _entries c' with
                 | [] => None
                 | _ :: _ => Some (inl c')
                 end
             | inr t => if keep t then Some (inr t) else None
             end)
       (_entries s)).

Definition filterTestsRemoveEmptySuites (s : Suite)
    (keep : TestCase → bool) : bool * Suite :=
  let s' := filterTests keep s in
  (match _entries s' with [] => false | _ :: _ => true end, s').

(** Keep the focused tests, the focused suites and the suites that hold
    a focused item; [None] when there is nothing focused below [s]. *)
Fixpoint onlyEntries (s : Suite) : option Suite :=
  match
    omap
      (λ e, match e with
            | inl c =>
                match onlyEntries c with
                | Some c' => Some (inl c')
                | None => if _only c then Some (inl c) else None
                end
            | inr t => if test_only t then Some (inr t) else None
            end)
      (_entries s)
  with
  | [] => None
  | es => Some (with_entries s es)
  end.

Definition filterOnly (s : Suite) : Suite :=
  match _getOnlyItems s with
  | [] => s
  | _ :: _ => default s (onlyEntries s)
  end.

(** A built suite is a copy of the file suite stamped with the project;
    its tests carry the title path they have below the project suite,
    which starts with the name of the project. *)
Fixpoint underProject (project : FullProjectInternal) (s : Suite) : Suite :=
  with_projectConfig
    (with_entries s
       (List.map
          (λ e, match e with
                | inl c => inl (underProject project c)
                | inr t =>
                    inr {| test_titlePath := name project :: test_titlePath t;
                           test_location := test_location t;
                           test_only := test_only t |}
                end)
          (_entries s)))
    project.

Definition buildFileSuiteForProject (project : FullProjectInternal)
    (fileSuite : Suite) (repeatEachIndex : nat) : Suite :=
  underProject project fileSuite.

(** *** Matchers *)

Definition contains (pattern text : string) : bool :=
  match String.index 0 pattern text with Some _ => true | None => false end.

Definition createTitleMatcher (patterns : list RegExp) : Matcher :=
  λ title, existsb (λ p, contains p title) patterns.

Definition createFileMatcherFromFilters (filters : list string) : Matcher :=
  λ f, existsb (String.eqb f) filters.

(** *** Projects and their files *)

Definition anything : list RegExp := [EmptyString].

Definition e2e : FullProjectInternal :=
  {| name := "e2e"; repeatEach := 1; _fullyParallel := true;
     grep := anything; grepInvert := Some ["@slow"] |}.
Definition smoke : FullProjectInternal :=
  {| name := "smoke"; repeatEach := 2; _fullyParallel := false;
     grep := anything; grepInvert := None |}.
Definition db : FullProjectInternal :=
  {| name := "db"; repeatEach := 1; _fullyParallel := false;
     grep := ["@setup"]; grepInvert := None |}.
Definition auth : FullProjectInternal :=
  {| name := "auth"; repeatEach := 1; _fullyParallel := false;
     grep := anything; grepInvert := None |}.
Definition flaky : FullProjectInternal :=
  {| name := "flaky"; repeatEach := 1; _fullyParallel := false;
     grep := anything; grepInvert := None |}.

(** [e2e] depends on [db] and [auth]. *)
Definition dependenciesOf (project : FullProjectInternal)
    : list FullProjectInternal :=
  if String.eqb (name project) "e2e" then [db; auth] else [].

Definition projectsThatAreDependencies (ps : list FullProjectInternal)
    : list FullProjectInternal :=
  JsSet.addAll [] (List.flat_map dependenciesOf ps).

(** A name that no project carries is an error. *)
Definition filterProjects (ps : list FullProjectInternal)
    (projectNames : option (list string))
    : Outcome (list FullProjectInternal) :=
  match projectNames with
  | None => Returned ps
  | Some names =>
      match
        List.filter (λ n, negb (existsb (λ p, String.eqb (name p) n) ps)) names
      with
      | [] => Returned
                (List.filter (λ p, existsb (String.eqb (name p)) names) ps)
      | unknown :: _ => Thrown ("Project(s) " +:+ unknown +:+ " not found")
      end
  end.

(** The cache lists the projects scanned so far. *)
Definition collectFilesForProject (project : FullProjectInternal)
    (fsCache : list string) : Outcome (list string) * list string :=
  let files :=
    if String.eqb (name project) "e2e" then ["a.spec.ts"; "b.spec.ts"]
    else if String.eqb (name project) "smoke" then ["a.spec.ts"]
    else if String.eqb (name project) "db" then ["db.setup.ts"]
    else if String.eqb (name project) "auth" then ["auth.setup.ts"]
    else if String.eqb (name project) "flaky"
         then ["a.spec.ts"; "broken.spec.ts"; "b.spec.ts"]
    else [] in
  (Returned files, fsCache ++ [name project]).

(** A shard [(total, current)] keeps every [total]-th project. *)
Definition filterForShard (s : nat * nat) (m : FilesByProject)
    : FilesByProject :=
  List.map snd
    (List.filter (λ ip, Nat.eqb (fst ip mod fst s) (snd s - 1))
       (List.combine (seq 0 (length m)) m)).

(** *** Test files *)

Definition test (path : list string) (l : nat) (only : bool) : TestCase :=
  {| test_titlePath := path;
     test_location :=
       {| file := default EmptyString (head path); line := l; column := 1 |};
     test_only := only |}.

Definition fileSuite (f : string) (es : list (Suite + TestCase)) : Suite :=
  {| title := f; _type := TFile; _requireFile := f; _projectConfig := None;
     _parallelMode := PMdefault; _only := false; _entries := es |}.

Definition describeSuite (t : string) (es : list (Suite + TestCase))
    : Suite :=
  {| title := t; _type := TDescribe; _requireFile := EmptyString;
     _projectConfig := None; _parallelMode := PMdefault; _only := false;
     _entries := es |}.

Definition a_spec : Suite :=
  fileSuite "a.spec.ts"
    [inl (describeSuite "suite A"
            [inr (test ["a.spec.ts"; "suite A"; "does X"] 3 false);
             inr (test ["a.spec.ts"; "suite A"; "does Y @slow"] 7 false)])].

Definition b_spec : Suite :=
  fileSuite "b.spec.ts"
    [inr (test ["b.spec.ts"; "opens"] 2 true);
     inr (test ["b.spec.ts"; "closes"] 5 false)].

Definition db_setup : Suite :=
  fileSuite "db.setup.ts"
    [inr (test ["db.setup.ts"; "migrate @setup"] 1 true);
     inr (test ["db.setup.ts"; "seed"] 4 false)].

Definition auth_setup : Suite :=
  fileSuite "auth.setup.ts" [inr (test ["auth.setup.ts"; "login"] 1 false)].

(** The host counts the files it has loaded; [broken.spec.ts] makes it
    throw, an unknown file loads as an empty suite with a load error. *)
Definition loadTestFile (loaderHost : nat) (f : string)
    (errors : list TestError) : Outcome Suite * list TestError * nat :=
  if String.eqb f "a.spec.ts" then (Returned a_spec, errors, S loaderHost)
  else if String.eqb f "b.spec.ts" then (Returned b_spec, errors, S loaderHost)
  else if String.eqb f "db.setup.ts"
       then (Returned db_setup, errors, S loaderHost)
  else if String.eqb f "auth.setup.ts"
       then (Returned auth_setup, errors, S loaderHost)
  else if String.eqb f "broken.spec.ts"
       then (Thrown "loader crashed", errors, loaderHost)
  else (Returned (fileSuite f []),
        errors ++ [{| message := "Error: cannot load " +:+ f;
                      location := None |}],
        S loaderHost).

Definition stop (loaderHost : nat) : Outcome unit * nat :=
  (Returned (), loaderHost).

(** The instance of the imports: no out-of-process loader, no
    line/column focus, paths already relative to the root directory. *)
Definition imports : Imports string (nat * nat) (list string) nat :=
  Build_Imports string (nat * nat) (list string) nat
    filterProjects collectFilesForProject projectsThatAreDependencies []
    createFileMatcherFromFilters createTitleMatcher filterForShard
    false (λ _, 0) (λ _, 0) loadTestFile stop
    allTests _getOnlyItems
    buildFileSuiteForProject (λ s _, s) filterTestsRemoveEmptySuites
    filterOnly
    (λ _ f, f).

(** *** Configurations, options and the initial state *)

Definition config (forbid : bool) : FullConfigInternal (nat * nat) :=
  {| projects := [e2e; smoke; db; auth]; shard := None;
     forbidOnly := forbid; rootDir := "/repo" |}.

Definition flakyConfig : FullConfigInternal (nat * nat) :=
  {| projects := [flaky]; shard := None; forbidOnly := false;
     rootDir := "/repo" |}.

Definition options (names : option (list string)) : LoadOptions string :=
  {| listOnly := false; testFileFilters := []; testTitleMatcher := None;
     projectFilter := names; passWithNoTests := None |}.

Definition start : World := {| errors := []; calls := [] |}.

(** One file that declares the same title three times. *)
Definition triple_spec : Suite :=
  fileSuite "t.spec.ts"
    [inl (describeSuite "suite A"
            [inr (test ["t.spec.ts"; "suite A"; "does X"] 3 false);
             inr (test ["t.spec.ts"; "suite A"; "does X"] 8 false);
             inr (test ["t.spec.ts"; "suite A"; "does X"] 13 false)])].

(** The run over all four projects with focused tests forbidden, its
    root suite, its final state and the files it resolved. *)
Definition outcome : Outcome Suite * World :=
  Eval vm_compute in
    loadAllTests (imports := imports) (config true) (options None) start.

Definition root : Suite :=
  match outcome.1 with
  | Returned rootSuite => rootSuite
  | Thrown _ => newSuite EmptyString TRoot
  end.

Definition final : World := outcome.2.

Definition resolvedOr (o : Outcome (Resolved)) : Resolved :=
  match o with
  | Returned r => r
  | Thrown _ =>
      {| allFilesForProject := []; filesToRunByProject := [];
         topLevelProjects := []; dependencyProjects := [] |}
  end.

Definition resolved : Resolved :=
  Eval vm_compute in
    resolvedOr (resolveFiles (imports := imports) (config true)
                  (options None)).

(** The files resolved when only [e2e] is selected on the command
    line. *)
Definition resolvedForE2e : Resolved :=
  Eval vm_compute in
    resolvedOr (resolveFiles (imports := imports) (config true)
                  (options (Some ["e2e"]))).

(** The files resolved for the configuration whose second file makes
    the loader throw. *)
Definition resolvedForFlaky : Resolved :=
  Eval vm_compute in
    resolvedOr (resolveFiles (imports := imports) flakyConfig (options None)).

(** Two tests of [a.spec.ts] as they stand below the suite of [e2e]. *)
Definition doesX_e2e : TestCase :=
  {| test_titlePath := ["e2e"; "a.spec.ts"; "suite A"; "does X"];
     test_location := {| file := "a.spec.ts"; line := 3; column := 1 |};
     test_only := false |}.

Definition doesY_e2e : TestCase :=
  {| test_titlePath := ["e2e"; "a.spec.ts"; "suite A"; "does Y @slow"];
     test_location := {| file := "a.spec.ts"; line := 7; column := 1 |};
     test_only := false |}.
End Scenario.

(** ** Modules to load in the worked configuration *)
Module ScenarioModules.

(** A global setup file with a default export, a reporter file that
    exports its class directly and a data file that exports no function;
    any other file fails to load. *)
Definition requireOrImport (file : string) : Outcome JsValue :=
  if String.eqb file "/repo/global-setup.ts"
  then Returned (JsObject [("default", JsFunction "globalSetup")])
  else if String.eqb file "/repo/reporter.js"
  then Returned (JsFunction "MyReporter")
  else if String.eqb file "/repo/data.js"
  then Returned (JsObject [("name", JsString "data")])
  else Thrown ("Cannot find module " +:+ file).

(** The error text is the file followed by the message; paths resolve by
    joining. *)
Definition moduleImports : ModuleImports :=
  Build_ModuleImports requireOrImport
    (λ file message, file +:+ ": " +:+ message)
    (λ rootDir file, rootDir +:+ "/" +:+ file).

(** The file suites of the run of the worked configuration and the state
    after loading them. *)
Definition loaded : Outcome (list Suite) * World :=
  Eval vm_compute in
    loadFileSuites (imports := Scenario.imports) (Scenario.config true)
      (filesToRunByProject Scenario.resolved) Scenario.start.

Definition loadedSuites : list Suite :=
  match loaded.1 with Returned fileSuits => fileSuits | Thrown _ => [] end.

(** The options of the command line [--list --pass-with-no-tests]. *)
Definition listingOptions : LoadOptions string :=
  {| listOnly := true; testFileFilters := []; testTitleMatcher := None;
     projectFilter := None; passWithNoTests := Some true |}.
End ScenarioModules.

(** * Properties *)

(** ** Facts about the containers *)

Section JsMapFacts.
Context {K V : Type} `{EqDecision K}.
Implicit Types (m : JsMap.t K V) (k : K) (v : V).

(** Reading a key after writing it, and reading another key. *)
Lemma get_set_eq m k v : JsMap.get (JsMap.set m k v) k = Some v.
Proof.
  induction m as [|[k' v'] m IH]; simpl.
  - by rewrite decide_True.
  - destruct (decide (k' = k)) as [->|Hne]; simpl.
    + by rewrite decide_True.
    + by rewrite decide_False.
Qed.

Lemma get_set_ne m k k' v :
  k ≠ k' → JsMap.get (JsMap.set m k v) k' = JsMap.get m k'.
Proof.
  intros Hne. induction m as [|[k0 v0] m IH]; simpl.
  - by rewrite decide_False.
  - destruct (decide (k0 = k)) as [->|Hne0]; simpl.
    + by rewrite !decide_False.
    + destruct (decide (k0 = k')); done.
Qed.

(** Writing keeps the place of a present key and puts a new key last. *)
Lemma keys_set_in m k v :
  k ∈ JsMap.keys m → JsMap.keys (JsMap.set m k v) = JsMap.keys m.
Proof.
  unfold JsMap.keys. induction m as [|[k' v'] m IH]; simpl.
  - by intros ?%elem_of_nil.
  - destruct (decide (k' = k)) as [->|Hne]; simpl; [done|].
    intros [?|?]%elem_of_cons; [congruence|]. f_equal. by apply IH.
Qed.

Lemma keys_set_notin m k v :
  k ∉ JsMap.keys m → JsMap.keys (JsMap.set m k v) = JsMap.keys m ++ [k].
Proof.
  unfold JsMap.keys. induction m as [|[k' v'] m IH]; simpl; [done|].
  intros Hni. apply not_elem_of_cons in Hni as [Hne Hni].
  rewrite decide_False by done. simpl. f_equal. by apply IH.
Qed.

End JsMapFacts.

Section JsSetFacts.
Context {T : Type} `{EqDecision T}.
Implicit Types (s xs : list T) (x y : T).

Lemma add_NoDup s x : NoDup s → NoDup (JsSet.add s x).
Proof.
  intros Hs. unfold JsSet.add. case_decide; [done|].
  apply NoDup_app. split_and!; [done| |apply NoDup_singleton].
  intros y Hy ->%list_elem_of_singleton. done.
Qed.

Lemma elem_of_add s x y : y ∈ JsSet.add s x ↔ y ∈ s ∨ y = x.
Proof.
  unfold JsSet.add. case_decide.
  - split; [by left|]. intros [?| ->]; done.
  - rewrite elem_of_app, list_elem_of_singleton. done.
Qed.

Lemma addAll_NoDup s xs : NoDup s → NoDup (JsSet.addAll s xs).
Proof.
  unfold JsSet.addAll. revert s. induction xs as [|x xs IH]; simpl; [done|].
  intros s Hs. apply IH. by apply add_NoDup.
Qed.

Lemma elem_of_addAll s xs y : y ∈ JsSet.addAll s xs ↔ y ∈ s ∨ y ∈ xs.
Proof.
  unfold JsSet.addAll. revert s. induction xs as [|x xs IH]; simpl; intros s.
  - rewrite elem_of_nil. tauto.
  - rewrite IH, elem_of_add, elem_of_cons. tauto.
Qed.
End JsSetFacts.

(** ** Facts about the effects *)

Lemma Outcome_bind_Returned {A B} (m : Outcome A) (f : A → Outcome B) b :
  m ≫= f = Returned b → ∃ a, m = Returned a ∧ f a = Returned b.
Proof. destruct m as [a|e]; [eauto|done]. Qed.

Lemma Run_bind_Returned {A B} (m : Run A) (f : A → Run B) w b w' :
  (m ≫= f) w = (Returned b, w') →
  ∃ a w1, m w = (Returned a, w1) ∧ f a w1 = (Returned b, w').
Proof.
  unfold mbind, Run_bind. destruct (m w) as [[a|e] w1]; [eauto|done].
Qed.

Lemma Run_bind_cases {A B} (m : Run A) (f : A → Run B) w o w' :
  (m ≫= f) w = (o, w') →
  (∃ a w1, m w = (Returned a, w1) ∧ f a w1 = (o, w')) ∨
  (∃ e, m w = (Thrown e, w') ∧ o = Thrown e).
Proof.
  unfold mbind, Run_bind. destruct (m w) as [[a|e] w1].
  - left. eauto.
  - intros [= <- <-]. right. eauto.
Qed.

Lemma lift_inv {A} (x : Outcome A) w o w' :
  lift x w = (o, w') → o = x ∧ w' = w.
Proof. by intros [= <- <-]. Qed.

Lemma stops_app cs1 cs2 : stops (cs1 ++ cs2) = stops cs1 + stops cs2.
Proof. unfold stops. by rewrite filter_app, length_app. Qed.

Lemma stops_loads fs : stops (LoadTestFile <$> fs) = 0.
Proof.
  unfold stops. induction fs as [|f fs IH]; [done|].
  rewrite fmap_cons, filter_cons_False by done. exact IH.
Qed.

Lemma loads_app cs1 cs2 f : loads (cs1 ++ cs2) f = loads cs1 f + loads cs2 f.
Proof. unfold loads. by rewrite filter_app, length_app. Qed.

Lemma loads_notin fs f : f ∉ fs → loads (LoadTestFile <$> fs) f = 0.
Proof.
  unfold loads. induction fs as [|g fs IH]; [done|].
  intros [Hne Hni]%not_elem_of_cons.
  rewrite fmap_cons, filter_cons_False by congruence. by apply IH.
Qed.

(** Every member of a duplicate-free list of files is loaded once. *)
Lemma loads_NoDup fs f :
  NoDup fs → loads (LoadTestFile <$> fs) f = if decide (f ∈ fs) then 1 else 0.
Proof.
  induction 1 as [|g fs Hg Hfs IH].
  - by rewrite decide_False by apply not_elem_of_nil.
  - change (LoadTestFile <$> g :: fs) with ([LoadTestFile g] ++ (LoadTestFile <$> fs)).
    rewrite loads_app. destruct (decide (f = g)) as [->|Hne].
    + rewrite loads_notin by done. rewrite decide_True by left.
      unfold loads. by rewrite filter_cons_True.
    + rewrite IH. unfold loads. rewrite filter_cons_False by congruence.
      simpl. destruct (decide (f ∈ fs)) as [Hin|Hni].
      * rewrite decide_True; [done|by right].
      * rewrite decide_False; [done|].
        intros [?|?]%elem_of_cons; done.
Qed.

(** ** Facts about the pipeline *)

Section PipelineFacts.
Context {TestFileFilter Shard FsCache LoaderHost : Type}.
Context {imports : Imports TestFileFilter Shard FsCache LoaderHost}.

Implicit Types (config : FullConfigInternal Shard)
               (options : LoadOptions TestFileFilter)
               (r : Resolved) (w : World)
               (m : FilesByProject).

(** *** Loading *)

Lemma call_loadTestFile_calls (loaderHost : LoaderHost) f w o w' :
  call_loadTestFile loaderHost f w = (o, w') →
  calls w' = calls w ++ [LoadTestFile f].
Proof.
  unfold call_loadTestFile.
  destruct (loadTestFile loaderHost f (errors w)) as [[[s|e] errs] h];
    by intros [= <- <-].
Qed.

(** The loop calls [loadTestFile] on the files in order and stops at the
    first call that throws. *)
Lemma loadEach_calls (loaderHost : LoaderHost) fs acc w o w' :
  loadEach loaderHost fs acc w = (o, w') →
  ∃ loaded, calls w' = calls w ++ (LoadTestFile <$> loaded) ∧
            loaded `prefix_of` fs ∧
            (∀ x, o = Returned x → loaded = fs).
Proof.
  revert loaderHost acc w. induction fs as [|f fs IH]; intros h acc w; simpl.
  - intros [= <- <-]. exists []. by rewrite app_nil_r.
  - intros [([s h'] & w1 & Hcall & Hrest)|(e & Hcall & ->)]%Run_bind_cases.
    + apply call_loadTestFile_calls in Hcall.
      destruct (IH _ _ _ Hrest) as (loaded & Hcalls & Hpre & Hret).
      exists (f :: loaded). split_and!.
      * rewrite Hcalls, Hcall, <-(assoc_L (++)). done.
      * by apply prefix_cons.
      * intros x Hx. f_equal. eauto.
    + apply call_loadTestFile_calls in Hcall.
      exists [f]. split_and!; [done| |done].
      apply prefix_cons, prefix_nil.
Qed.

Lemma loadFileSuites_cases config m w o w' :
  loadFileSuites config m w = (o, w') →
  (∃ fileSuits loaderHost w1,
     loadEach (newLoaderHost config) (allTestFiles m) [] w
     = (Returned (fileSuits, loaderHost), w1) ∧
     calls w' = calls w ++ (LoadTestFile <$> allTestFiles m) ++ [Stop] ∧
     errors w' = errors w1 ∧
     (∀ x, o = Returned x → x = fileSuits)) ∨
  (∃ e loaded,
     loadEach (newLoaderHost config) (allTestFiles m) [] w = (Thrown e, w') ∧
     o = Thrown e ∧
     calls w' = calls w ++ (LoadTestFile <$> loaded) ∧
     loaded `prefix_of` allTestFiles m).
Proof.
  unfold loadFileSuites. fold (newLoaderHost config).
  intros [([fileSuits h] & w1 & Hload & Hrest)|(e & Hload & ->)]%Run_bind_cases.
  - left. exists fileSuits, h, w1.
    destruct (loadEach_calls _ _ _ _ _ _ Hload) as (loaded & Hcalls & _ & Hall).
    rewrite (Hall _ eq_refl) in Hcalls.
    unfold mbind, Run_bind, call_stop, mret, Run_ret in Hrest.
    destruct (stop h) as [[[]|e] h']; simpl in Hrest;
      injection Hrest as <- <-; simpl; rewrite Hcalls, <-(assoc_L (++));
      (split_and!; [done..|]); [by intros x [= <-]|done].
  - right. destruct (loadEach_calls _ _ _ _ _ _ Hload) as (loaded & Hcalls & Hpre & _).
    exists e, loaded. done.
Qed.

(** *** Attaching project suites *)

Lemma createForbidOnlyErrors_map (items : list TestOrSuite) :
  createForbidOnlyErrors items = forbidOnlyError <$> items.
Proof.
  unfold createForbidOnlyErrors.
  enough (∀ acc, foldl (λ errors testOrSuite,
                          errors ++ [forbidOnlyError testOrSuite]) acc items
                 = acc ++ (forbidOnlyError <$> items)) as H by apply H.
  induction items as [|it items IH]; intros acc; simpl.
  - by rewrite app_nil_r.
  - rewrite IH, <-(assoc_L (++)). done.
Qed.

Lemma projectSuites_cons options m fileSuits p ps :
  projectSuites options m fileSuits (p :: ps) =
  match JsMap.get m p ≫= createProjectSuite fileSuits p options with
  | Some s => s :: projectSuites options m fileSuits ps
  | None => projectSuites options m fileSuits ps
  end.
Proof. done. Qed.

(** The first loop appends the project suites in the order of the
    projects. *)
Lemma attachProjectSuites_add fileSuits options m (root root' : Suite) ps :
  attachProjectSuites _addSuite fileSuits options m root ps = Returned root' →
  _entries root' =
  _entries root ++ (inl <$> projectSuites options m fileSuits ps).
Proof.
  revert root. induction ps as [|p ps IH]; intros root.
  - intros [= <-]. by rewrite app_nil_r.
  - rewrite projectSuites_cons. cbn [attachProjectSuites].
    intros (root1 & Hone & Hrest)%Outcome_bind_Returned.
    rewrite (IH _ Hrest). clear IH Hrest.
    unfold attachProjectSuite in Hone.
    destruct (JsMap.get m p) as [files|]; [simpl|done].
    destruct (createProjectSuite fileSuits p options files) as [s|];
      injection Hone as <-; simpl.
    + by rewrite <-(assoc_L (++)).
    + done.
Qed.

(** The second loop prepends them one by one, which reverses them. *)
Lemma attachProjectSuites_prepend fileSuits options m (root root' : Suite) ps :
  attachProjectSuites _prependSuite fileSuits options m root ps
  = Returned root' →
  _entries root' =
  (inl <$> reverse (projectSuites options m fileSuits ps)) ++ _entries root.
Proof.
  revert root. induction ps as [|p ps IH]; intros root.
  - by intros [= <-].
  - rewrite projectSuites_cons. cbn [attachProjectSuites].
    intros (root1 & Hone & Hrest)%Outcome_bind_Returned.
    rewrite (IH _ Hrest). clear IH Hrest.
    unfold attachProjectSuite in Hone.
    destruct (JsMap.get m p) as [files|]; [simpl|done].
    destruct (createProjectSuite fileSuits p options files) as [s|];
      injection Hone as <-; simpl.
    + by rewrite reverse_cons, fmap_app, <-(assoc_L (++)).
    + done.
Qed.

(** *** The run as a whole *)

Lemma complainAboutOnly_inv config (rootSuite : Suite) w o w' :
  complainAboutOnly config rootSuite w = (o, w') →
  o = Returned () ∧ calls w' = calls w ∧
  errors w' = errors w ++ forbidOnlyErrors config rootSuite.
Proof.
  unfold complainAboutOnly, forbidOnlyErrors.
  destruct (forbidOnly config).
  - case_bool_decide as Hlen.
    + intros [= <- <-]. by rewrite createForbidOnlyErrors_map.
    + intros [= <- <-]. destruct (_getOnlyItems rootSuite); simpl in *; [|lia].
      by rewrite app_nil_r.
  - intros [= <- <-]. by rewrite app_nil_r.
Qed.

(** No call is made on the loader host once the files are loaded. *)
Lemma assembleRoot_calls config options r fileSuits w o w' :
  assembleRoot config options r fileSuits w = (o, w') → calls w' = calls w.
Proof.
  unfold assembleRoot.
  intros [([] & w1 & [= <-] & H)|(e & [=] & _)]%Run_bind_cases.
  apply Run_bind_cases in H as [(top & w2 & [_ ->]%lift_inv & H)|(e & [_ ->]%lift_inv & _)];
    [|done].
  apply Run_bind_cases in H as [([] & w3 & Hc & H)|(e & Hc & _)];
    apply complainAboutOnly_inv in Hc as (? & Hc & _); [|done].
  apply Run_bind_cases in H as [(root & w4 & [_ ->]%lift_inv & [= _ <-])|(e & [_ ->]%lift_inv & _)];
    done.
Qed.

Lemma assembleRoot_Returned config options r fileSuits w (root : Suite) w' :
  assembleRoot config options r fileSuits w = (Returned root, w') →
  ∃ topRoot,
    composeTopLevel options r fileSuits = Returned topRoot ∧
    prependDependencies options r fileSuits (filterOnly topRoot)
    = Returned root ∧
    errors w' = errors w ++ createDuplicateTitlesErrors config fileSuits ++
                forbidOnlyErrors config topRoot.
Proof.
  unfold assembleRoot.
  intros ([] & w1 & [= <-] & H)%Run_bind_Returned.
  apply Run_bind_Returned in H as (top & w2 & [Htop ->]%lift_inv & H).
  apply Run_bind_Returned in H as ([] & w3 & Hc & H).
  apply complainAboutOnly_inv in Hc as (_ & _ & Herr).
  apply Run_bind_Returned in H as (root' & w4 & [Hdep ->]%lift_inv & [= -> <-]).
  exists top. split_and!; [done..|].
  rewrite Herr. simpl. by rewrite <-(assoc_L (++)).
Qed.

(** A run that returns went through every stage. *)
Lemma loadAllTests_Returned config options w (root : Suite) w' :
  loadAllTests config options w = (Returned root, w') →
  ∃ r fileSuits w1 topRoot,
    Stages config options w r fileSuits w1 topRoot root ∧
    calls w' = calls w ++
               (LoadTestFile <$> allTestFiles (filesToRunByProject r)) ++
               [Stop] ∧
    errors w' = errors w1 ++ createDuplicateTitlesErrors config fileSuits ++
                forbidOnlyErrors config topRoot.
Proof.
  unfold loadAllTests.
  intros (r & w0 & [Hr ->]%lift_inv & H)%Run_bind_Returned.
  apply Run_bind_Returned in H as (fileSuits & w1 & Hload & H).
  pose proof (assembleRoot_calls _ _ _ _ _ _ _ H) as Hcalls.
  apply assembleRoot_Returned in H as (topRoot & Htop & Hdep & Herr).
  exists r, fileSuits, w1, topRoot. split_and!; [done..| |done].
  rewrite Hcalls.
  apply loadFileSuites_cases in Hload as
    [(? & ? & ? & _ & -> & _)|(e & ? & _ & [=] & _)]; done.
Qed.

Lemma Stages_entries config options w r fileSuits w1 (topRoot root : Suite) :
  Stages config options w r fileSuits w1 topRoot root →
  _entries topRoot = (inl <$> topLevelSuites options r fileSuits) ∧
  _entries root = (inl <$> reverse (dependencySuites options r fileSuits)) ++
                  _entries (filterOnly topRoot).
Proof.
  intros (_ & _ & Htop & Hdep). split.
  - by apply attachProjectSuites_add in Htop.
  - by apply attachProjectSuites_prepend in Hdep.
Qed.

(** Open a run that returns into its stages and provide them as the
    witnesses of the goal. *)
Local Ltac open_run Hrun r fileSuits w1 topRoot Hst Hcalls Herr :=
  apply loadAllTests_Returned in Hrun
    as (r & fileSuits & w1 & topRoot & Hst & Hcalls & Herr);
  exists r, fileSuits, w1, topRoot; split; [exact Hst|].

(** *** The files to load *)

Lemma allTestFiles_NoDup m : NoDup (allTestFiles m).
Proof.
  unfold allTestFiles.
  enough (∀ ls (acc : list string),
            NoDup acc → NoDup (foldl JsSet.addAll acc ls)) as H
    by apply H, NoDup_nil_2.
  induction ls as [|files ls IH]; intros acc Hacc; simpl; [done|].
  by apply IH, addAll_NoDup.
Qed.

Lemma elem_of_allTestFiles m f : f ∈ allTestFiles m ↔ inSomeFileList m f.
Proof.
  unfold allTestFiles, inSomeFileList, JsMap.values.
  assert (∀ ls (acc : list string),
            f ∈ foldl JsSet.addAll acc ls ↔
            f ∈ acc ∨ ∃ files, files ∈ ls ∧ f ∈ files) as H.
  { induction ls as [|files ls IH]; intros acc; simpl.
    - split; [by left|]. intros [?|(? & ?%elem_of_nil & _)]; done.
    - rewrite IH, elem_of_addAll. split.
      + intros [[?|?]|(fs & ? & ?)]; [by left|right..].
        * exists files. split; [left|done].
        * exists fs. split; [by right|done].
      + intros [?|(fs & [->|?]%elem_of_cons & ?)]; [by left; left|by left; right|].
        right. by exists fs. }
  rewrite H, elem_of_nil. split.
  - intros [[]|(files & ([p fs] & -> & Hin)%list_elem_of_fmap & Hf)]. eauto.
  - intros (p & files & Hin & Hf). right. exists files. split; [|done].
    apply list_elem_of_fmap. by exists (p, files).
Qed.

(** *** Where a failure comes from *)

Lemma collectAllFiles_Thrown ps (fsCache : FsCache) acc e :
  collectAllFiles ps fsCache acc = Thrown e →
  ∃ p c, (collectFilesForProject p c).1 = Thrown e.
Proof.
  revert fsCache acc. induction ps as [|q ps IH]; intros c acc; simpl; [done|].
  destruct (collectFilesForProject q c) as [[files|e'] c1] eqn:Hq.
  - apply IH.
  - intros [= <-]. exists q, c. by rewrite Hq.
Qed.

Lemma addDependencyFiles_Thrown deps (allFiles : FilesByProject)
    (fsCache : FsCache) m e :
  addDependencyFiles deps allFiles fsCache m = Thrown e →
  ∃ p c, (collectFilesForProject p c).1 = Thrown e.
Proof.
  revert fsCache m. induction deps as [|q deps IH]; intros c m; simpl; [done|].
  destruct (JsMap.get allFiles q); [apply IH|].
  destruct (collectFilesForProject q c) as [[files|e'] c1] eqn:Hq.
  - apply IH.
  - intros [= <-]. exists q, c. by rewrite Hq.
Qed.

(** The first block fails with the error of [filterProjects] or of a
    [collectFilesForProject] call. *)
Lemma resolveFiles_Thrown config options e :
  resolveFiles config options = Thrown e →
  filterProjects (projects config) (projectFilter options) = Thrown e ∨
  ∃ p c, (collectFilesForProject p c).1 = Thrown e.
Proof.
  unfold resolveFiles. intros Hthrown.
  destruct (filterProjects _ _) as [selected|e'] eqn:Hsel; simpl in Hthrown;
    [right|left; congruence].
  destruct (collectAllFiles _ newFsCache JsMap.empty) as [[allFiles c]|e']
    eqn:Hall; simpl in Hthrown.
  - destruct (addDependencyFiles _ allFiles c _) as [m'|e'] eqn:Hdeps;
      simpl in Hthrown; [done|].
    injection Hthrown as <-. by eapply addDependencyFiles_Thrown.
  - injection Hthrown as <-. by eapply collectAllFiles_Thrown.
Qed.

(** The loop fails with the error of the [loadTestFile] call that
    throws, which is the last call made. *)
Lemma loadEach_Thrown (loaderHost : LoaderHost) fs acc w e w' :
  loadEach loaderHost fs acc w = (Thrown e, w') →
  ∃ loaded file rest host errs,
    fs = loaded ++ file :: rest ∧
    (loadTestFile host file errs).1.1 = Thrown e ∧
    calls w' = calls w ++ (LoadTestFile <$> loaded ++ [file]).
Proof.
  revert loaderHost acc w. induction fs as [|f fs IH]; intros h acc w; simpl.
  - done.
  - intros [([s h1] & w1 & Hcall & Hrest)|(e' & Hcall & [= <-])]%Run_bind_cases.
    + apply call_loadTestFile_calls in Hcall.
      destruct (IH _ _ _ Hrest)
        as (loaded & file & rest & host & errs & -> & Hthrown & Hcalls).
      exists (f :: loaded), file, rest, host, errs. split_and!; [done..|].
      rewrite Hcalls, Hcall, <-(assoc_L (++)). done.
    + pose proof (call_loadTestFile_calls _ _ _ _ _ Hcall) as Hcalls.
      unfold call_loadTestFile in Hcall.
      destruct (loadTestFile h f (errors w)) as [[[s|e'] errs] h2] eqn:Hl;
        [done|].
      injection Hcall as <- _. exists [], f, fs, h, (errors w).
      split_and!; [done|by rewrite Hl|done].
Qed.

(** *** C1 *)

(** C1, as amended.  The number of [stop()] calls of a run is one when
    the run reaches the loading phase and every [loadTestFile] call
    returns, with [stop()] the last call made on the loader host, after
    every file is loaded.  Otherwise the run fails, [stop()] is not
    called, and the error of the run is the error that was thrown: by
    [filterProjects] or [collectFilesForProject] in the first block, which
    leaves the errors and the loader host untouched, or by the
    [loadTestFile] call that is then the last call made on the host. *)
Theorem stop_called_once_iff_loading_completes config options w o w' :
  loadAllTests config options w = (o, w') →
  (LoadingCompletes config options w →
   stops (calls w') = stops (calls w) + 1 ∧
   ∃ r, resolveFiles config options = Returned r ∧
        calls w' = calls w ++
          (LoadTestFile <$> allTestFiles (filesToRunByProject r)) ++ [Stop]) ∧
  (¬ LoadingCompletes config options w →
   stops (calls w') = stops (calls w) ∧
   ∃ e, o = Thrown e ∧
        ((resolveFiles config options = Thrown e ∧ w' = w ∧
          (filterProjects (projects config) (projectFilter options) = Thrown e ∨
           ∃ p c, (collectFilesForProject p c).1 = Thrown e)) ∨
         (∃ r loaded file rest host errs,
            resolveFiles config options = Returned r ∧
            allTestFiles (filesToRunByProject r) = loaded ++ file :: rest ∧
            (loadTestFile host file errs).1.1 = Thrown e ∧
            calls w' = calls w ++ (LoadTestFile <$> loaded ++ [file])))).
Proof.
  unfold loadAllTests.
  intros [(r & w0 & [Hr ->]%lift_inv & H)|(e & [He ->]%lift_inv & ->)]%Run_bind_cases.
  - assert (∃ o1 w1, loadFileSuites config (filesToRunByProject r) w = (o1, w1)
              ∧ calls w' = calls w1
              ∧ (∀ e, o1 = Thrown e → o = Thrown e ∧ w' = w1))
      as (o1 & w1 & Hload & Hcalls & Hthrown).
    { apply Run_bind_cases in H as
        [(fileSuits & w1 & Hload & H)|(e & Hload & ->)].
      - apply assembleRoot_calls in H. exists (Returned fileSuits), w1.
        split_and!; [done..|]. by intros e [=].
      - exists (Thrown e), w'. split_and!; [done..|]. by intros e' [= <-]. }
    rewrite Hcalls. clear H Hcalls.
    apply loadFileSuites_cases in Hload as
      [(fileSuits & h & w2 & Hload & -> & _)
      |(e & loaded & Hload & -> & Hcs & _)].
    + split.
      * intros _. split; [|by eauto].
        rewrite !stops_app, stops_loads. change (stops [Stop]) with 1. lia.
      * intros []. exists r, fileSuits, h, w2. by rewrite Hr.
    + split.
      * intros (r' & fileSuits & h & w2 & Hr' & Hload').
        rewrite <-Hr in Hr'. injection Hr' as ->. congruence.
      * intros _. rewrite Hcs. split; [rewrite stops_app, stops_loads; lia|].
        destruct (Hthrown e eq_refl) as [-> ->].
        exists e. split; [done|]. right.
        apply loadEach_Thrown in Hload
          as (loaded' & file & rest & host & errs & Hfs & Hfile & Hcalls).
        exists r, loaded', file, rest, host, errs.
        split_and!; [done..|]. by rewrite <-Hcs.
  - split.
    + intros (r & ? & ? & ? & Hr & _). rewrite <-He in Hr. done.
    + intros _. split; [done|]. exists e. split; [done|]. left.
      split_and!; [done..|]. by apply resolveFiles_Thrown.
Qed.

(** *** C6 *)

(** C6, as amended.  The calls a run makes on the loader host load no
    file twice and load only files of the union of the projects' file
    lists, in however many lists a file occurs.  When every
    [loadTestFile] call returns, whether or not [stop()] then throws,
    every file of the union has been loaded exactly once.  When a
    [loadTestFile] call throws, the run fails with the files up to the
    failing one loaded, and the files after it are not loaded. *)
Theorem each_file_loaded_at_most_once config options r w o w' :
  resolveFiles config options = Returned r →
  loadAllTests config options w = (o, w') →
  ∃ cs, calls w' = calls w ++ cs ∧
        (∀ f, (loads cs f ≤ 1)%nat) ∧
        (∀ f, (0 < loads cs f)%nat →
              inSomeFileList (filesToRunByProject r) f) ∧
        (LoadingCompletes config options w →
         ∀ f, inSomeFileList (filesToRunByProject r) f → loads cs f = 1) ∧
        (¬ LoadingCompletes config options w →
         ∃ e loaded file rest,
           o = Thrown e ∧
           allTestFiles (filesToRunByProject r) = loaded ++ file :: rest ∧
           cs = (LoadTestFile <$> loaded ++ [file]) ∧
           ∀ f, f ∈ rest → loads cs f = 0).
Proof.
  intros Hr. unfold loadAllTests.
  intros [(r' & w0 & [Hr' ->]%lift_inv & H)|(e & [He ->]%lift_inv & ->)]%Run_bind_cases;
    [|by rewrite <-He in Hr].
  rewrite <-Hr' in Hr. injection Hr as ->.
  pose proof (allTestFiles_NoDup (filesToRunByProject r)) as Hnd.
  assert (∃ o1 w1, loadFileSuites config (filesToRunByProject r) w = (o1, w1)
            ∧ calls w' = calls w1
            ∧ (∀ e, o1 = Thrown e → o = Thrown e))
    as (o1 & w1 & Hload & Hcalls & Hthrown).
  { apply Run_bind_cases in H as
      [(fileSuits & w1 & Hload & H)|(e & Hload & ->)].
    - apply assembleRoot_calls in H. exists (Returned fileSuits), w1.
      split_and!; [done..|]. by intros e [=].
    - exists (Thrown e), w'. split_and!; [done..|]. by intros e' [= <-]. }
  apply loadFileSuites_cases in Hload as
    [(fileSuits & h & w2 & Hloop & Hcs & _)
    |(e & loaded & Hloop & -> & Hcs & _)].
  - exists ((LoadTestFile <$> allTestFiles (filesToRunByProject r)) ++ [Stop]).
    split; [congruence|].
    assert (∀ f, loads ((LoadTestFile <$> allTestFiles (filesToRunByProject r)) ++ [Stop]) f
                 = if decide (f ∈ allTestFiles (filesToRunByProject r)) then 1 else 0) as Hl.
    { intros f. rewrite loads_app, loads_NoDup by done.
      change (loads [Stop] f) with 0. lia. }
    split_and!.
    + intros f. rewrite Hl. case_decide; lia.
    + intros f. rewrite Hl. case_decide; [|lia].
      intros _. by apply elem_of_allTestFiles.
    + intros _ f Hf. rewrite Hl, decide_True; [done|].
      by apply elem_of_allTestFiles.
    + intros []. exists r, fileSuits, h, w2. by rewrite Hr'.
  - pose proof (loadEach_Thrown _ _ _ _ _ _ Hloop)
      as (loaded' & file & rest & host & errs & Hfs & _ & Hloaded).
    exists (LoadTestFile <$> loaded' ++ [file]). split; [congruence|].
    assert (NoDup (loaded' ++ [file]) ∧ ∀ f, f ∈ rest → f ∉ loaded' ++ [file])
      as [Hnd' Hrest].
    { rewrite Hfs, cons_middle, (assoc_L (++)) in Hnd.
      apply NoDup_app in Hnd as (? & Hdis & _). split; [done|].
      intros f Hf Hin. by apply (Hdis f). }
    split_and!.
    + intros f. rewrite loads_NoDup by done. case_decide; lia.
    + intros f. rewrite loads_NoDup by done. case_decide as Hin; [|lia].
      intros _. apply elem_of_allTestFiles.
      rewrite Hfs, cons_middle, (assoc_L (++)). apply elem_of_app. by left.
    + intros (r' & fileSuits & h & w2 & Hr2 & Hloop2).
      rewrite <-Hr' in Hr2. injection Hr2 as ->. congruence.
    + intros _. exists e, loaded', file, rest.
      split_and!; [by apply Hthrown|done..|].
      intros f Hf. rewrite loads_NoDup by done. rewrite decide_False; [done|].
      by apply Hrest.
Qed.

(** *** C5 *)

(** The first loop records a list for the selected projects and for no
    other project, each list as collected. *)
Lemma collectAllFiles_spec ps (fsCache fsCache' : FsCache) acc m :
  collectAllFiles ps fsCache acc = Returned (m, fsCache') →
  ∀ p, (is_Some (JsMap.get m p) ↔ is_Some (JsMap.get acc p) ∨ p ∈ ps) ∧
       (∀ files, JsMap.get m p = Some files →
                 JsMap.get acc p = Some files ∨ Collected p files).
Proof.
  revert fsCache acc. induction ps as [|q ps IH]; intros c acc; simpl.
  - intros [= <- <-] p. split; [|by left].
    rewrite elem_of_nil. tauto.
  - destruct (collectFilesForProject q c) as [[files|e] c1] eqn:Hq; [|done].
    intros H p. destruct (IH _ _ H p) as [IH1 IH2]. clear IH H. split.
    + rewrite IH1, elem_of_cons. destruct (decide (q = p)) as [->|Hne].
      * rewrite get_set_eq. split; [by right; left|eauto].
      * rewrite get_set_ne by done. split; [tauto|].
        intros [?|[?|?]]; [by left|congruence|by right].
    + intros fs [Hfs|?]%IH2; [|by right].
      destruct (decide (q = p)) as [->|Hne].
      * rewrite get_set_eq in Hfs. injection Hfs as <-.
        right. exists c. by rewrite Hq.
      * rewrite get_set_ne in Hfs by done. by left.
Qed.

(** The last loop of the first block gives every dependency project its
    recorded list, or a list collected on the spot when none is recorded,
    and leaves the other projects alone. *)
Lemma addDependencyFiles_spec deps (allFiles : FilesByProject)
    (fsCache : FsCache) m m' :
  addDependencyFiles deps allFiles fsCache m = Returned m' →
  ∀ p, (p ∈ deps →
        ∃ files, JsMap.get m' p = Some files ∧
                 match JsMap.get allFiles p with
                 | Some baseline => files = baseline
                 | None => Collected p files
                 end) ∧
       (p ∉ deps → JsMap.get m' p = JsMap.get m p).
Proof.
  revert fsCache m. induction deps as [|q deps IH]; intros c m; simpl.
  - intros [= <-] p. split; [by intros ?%elem_of_nil|done].
  - assert (∀ files c1,
              match JsMap.get allFiles q with
              | Some baseline => files = baseline
              | None => Collected q files
              end →
              addDependencyFiles deps allFiles c1 (JsMap.set m q files)
              = Returned m' →
              ∀ p, (p ∈ q :: deps →
                    ∃ files, JsMap.get m' p = Some files ∧
                             match JsMap.get allFiles p with
                             | Some baseline => files = baseline
                             | None => Collected p files
                             end) ∧
                   (p ∉ q :: deps → JsMap.get m' p = JsMap.get m p)) as Hstep.
    { intros files c1 Hfiles H p. destruct (IH _ _ H p) as [IH1 IH2]. split.
      - intros Hin. destruct (decide (p ∈ deps)) as [?|Hni]; [by apply IH1|].
        apply elem_of_cons in Hin as [->|?]; [|done].
        exists files. by rewrite IH2, get_set_eq.
      - intros [Hne Hni]%not_elem_of_cons.
        by rewrite IH2, get_set_ne. }
    destruct (JsMap.get allFiles q) as [baseline|] eqn:Hget.
    + apply Hstep. done.
    + destruct (collectFilesForProject q c) as [[files|e] c1] eqn:Hq; [|done].
      apply Hstep. exists c. by rewrite Hq.
Qed.

(** C5, as amended.  The file list of a dependency project is a list
    returned by [collectFilesForProject], never narrowed by the
    command-line file filters or the shard: the list of the initial
    collection step when the project is among the selected projects, and
    otherwise, when the initial step did not visit the project, a list
    collected while the dependencies are added. *)
Theorem dependency_files_are_collected_lists config options r p :
  resolveFiles config options = Returned r →
  p ∈ dependencyProjects r →
  ∃ files selected,
    JsMap.get (filesToRunByProject r) p = Some files ∧
    Collected p files ∧
    filterProjects (projects config) (projectFilter options)
    = Returned selected ∧
    match JsMap.get (allFilesForProject r) p with
    | Some baseline => files = baseline ∧ p ∈ selected
    | None => p ∉ selected
    end.
Proof.
  unfold resolveFiles.
  intros (selected & Hsel & H)%Outcome_bind_Returned.
  apply Outcome_bind_Returned in H as ([allFiles c] & Hall & H).
  apply Outcome_bind_Returned in H as (m' & Hdeps & [= <-]). simpl.
  intros Hp.
  destruct (collectAllFiles_spec _ _ _ _ _ Hall p) as [Hkeys Hvals].
  destruct (addDependencyFiles_spec _ _ _ _ _ Hdeps p) as [(files & Hget & Hfiles) _];
    [done|].
  exists files, selected. split; [done|].
  destruct (JsMap.get allFiles p) as [baseline|] eqn:Hbase.
  - subst files. split_and!; [|done|done|].
    + by destruct (Hvals _ eq_refl) as [?|?].
    + destruct Hkeys as [Hk _]. destruct Hk as [[? ?]|?]; [by eexists|done..].
  - split_and!; [done..|]. intros Hin.
    destruct Hkeys as [_ Hk]. destruct Hk as [? ?]; [by right|done].
Qed.

(** *** C3 *)

(** C3.  The children of the root suite a run returns are the suites of
    the dependency projects followed by what the only-filter left of the
    root with the suites of the top-level projects: every
    dependency-project suite has a smaller child index than every
    top-level-project suite. *)
Theorem dependency_suites_precede_top_level config options w root w' :
  loadAllTests config options w = (Returned root, w') →
  ∃ r fileSuits w1 topRoot,
    Stages config options w r fileSuits w1 topRoot root ∧
    let deps := reverse (dependencySuites options r fileSuits) in
    let tops := _entries (filterOnly topRoot) in
    _entries topRoot = (inl <$> topLevelSuites options r fileSuits) ∧
    _entries root = (inl <$> deps) ++ tops ∧
    ∀ i j d t,
      deps !! i = Some d → tops !! j = Some t →
      _entries root !! i = Some (inl d) ∧
      _entries root !! (length deps + j)%nat = Some t ∧
      (i < length deps + j)%nat.
Proof.
  intros Hrun. open_run Hrun r fileSuits w1 topRoot Hst Hcalls Herr.
  destruct (Stages_entries _ _ _ _ _ _ _ _ Hst) as [Htop Hroot].
  simpl. split_and!; [done..|].
  intros i j d t Hd Ht. rewrite Hroot. split_and!.
  - rewrite lookup_app_l by (rewrite length_fmap; by eapply lookup_lt_Some).
    by rewrite list_lookup_fmap, Hd.
  - rewrite lookup_app_r by (rewrite length_fmap; lia).
    rewrite length_fmap. by replace (_ + j - _)%nat with j by lia.
  - apply lookup_lt_Some in Hd. lia.
Qed.

(** *** C10 *)

(** C10.  The suites of the dependency projects are the first children
    of the returned root, in the reverse of the order in which the
    dependency closure lists their projects: a suite composed later
    stands before a suite composed earlier. *)
Theorem dependency_suites_in_reverse_order config options w root w' :
  loadAllTests config options w = (Returned root, w') →
  ∃ r fileSuits w1 topRoot,
    Stages config options w r fileSuits w1 topRoot root ∧
    dependencyProjects r = projectsThatAreDependencies (topLevelProjects r) ∧
    let deps := dependencySuites options r fileSuits in
    take (length deps) (_entries root) = (inl <$> reverse deps) ∧
    ∀ i j di dj,
      deps !! i = Some di → deps !! j = Some dj → (i < j)%nat →
      _entries root !! (length deps - 1 - i)%nat = Some (inl di) ∧
      _entries root !! (length deps - 1 - j)%nat = Some (inl dj) ∧
      (length deps - 1 - j < length deps - 1 - i)%nat.
Proof.
  intros Hrun. open_run Hrun r fileSuits w1 topRoot Hst Hcalls Herr.
  destruct (Stages_entries _ _ _ _ _ _ _ _ Hst) as [_ Hroot].
  split.
  { destruct Hst as (Hr & _). unfold resolveFiles in Hr.
    apply Outcome_bind_Returned in Hr as (selected & _ & Hr).
    apply Outcome_bind_Returned in Hr as ([allFiles c] & _ & Hr).
    by apply Outcome_bind_Returned in Hr as (m' & _ & [= <-]). }
  simpl. set (deps := dependencySuites options r fileSuits) in *.
  assert (∀ i d, deps !! i = Some d →
                 _entries root !! (length deps - 1 - i)%nat = Some (inl d)) as Hpos.
  { intros i d Hd. pose proof (lookup_lt_Some _ _ _ Hd) as Hlt.
    rewrite Hroot, lookup_app_l
      by (rewrite length_fmap, length_reverse; lia).
    rewrite list_lookup_fmap, reverse_lookup by lia.
    replace (length deps - S (length deps - 1 - i))%nat with i by lia.
    by rewrite Hd. }
  split.
  - rewrite Hroot, take_app_length'; [done|].
    by rewrite length_fmap, length_reverse.
  - intros i j di dj Hi Hj Hlt. split_and!; [by apply Hpos..|].
    apply lookup_lt_Some in Hj. lia.
Qed.

(** *** C7 and C9 *)

(** The first loop leaves the title, the type and the focus mark of the
    root as they are. *)
Lemma attachProjectSuites_add_shape fileSuits options m (root root' : Suite) ps :
  attachProjectSuites _addSuite fileSuits options m root ps = Returned root' →
  title root' = title root ∧ _type root' = _type root ∧
  _only root' = _only root.
Proof.
  revert root. induction ps as [|p ps IH]; intros root.
  - by intros [= <-].
  - cbn [attachProjectSuites].
    intros (root1 & Hone & Hrest)%Outcome_bind_Returned.
    destruct (IH _ Hrest) as (-> & -> & ->). clear IH Hrest.
    unfold attachProjectSuite in Hone.
    destruct (JsMap.get m p) as [files|]; [simpl in Hone|done].
    destruct (createProjectSuite fileSuits p options files) as [s|];
      by injection Hone as <-.
Qed.

(** The error of an item names the title path of the item from its
    third segment on. *)
Lemma forbidOnlyError_prefixed first second (item : TestOrSuite) :
  forbidOnlyError (prefixed first (prefixed second item)) =
  {| message :=
       "Error: focused item found in the --forbid-only mode: " +:+
       dquote +:+ String.concat " " (item_titlePath item) +:+ dquote;
     location := item_location item |}.
Proof. done. Qed.

(** Adding suites leaves the title and the type of the parent as they
    are. *)
Lemma foldl_addSuite_shape {A} (build : A → Suite) (parent : Suite)
    (l : list A) :
  title (foldl (λ s x, _addSuite s (build x)) parent l) = title parent ∧
  _type (foldl (λ s x, _addSuite s (build x)) parent l) = _type parent.
Proof.
  revert parent. induction l as [|x l IH]; intros parent; [done|].
  cbn [foldl]. by destruct (IH (_addSuite parent (build x))) as [-> ->].
Qed.

(** The suite [createProjectSuite] returns is the suite it made for the
    project: it has the name of the project as title and the type
    [project], when the filters leave title and type alone. *)
Lemma createProjectSuite_title fileSuits (project : FullProjectInternal)
    options files (projectSuite : Suite) :
  FiltersKeepTitleAndType →
  createProjectSuite fileSuits project options files = Some projectSuite →
  title projectSuite = name project ∧ _type projectSuite = TProject.
Proof.
  intros [Hfocus Htitle]. unfold createProjectSuite.
  set (built := unfilteredProjectSuite fileSuits project files).
  assert (title built = name project ∧ _type built = TProject) as [Ht Hty].
  { subst built. unfold unfilteredProjectSuite.
    set (start := if _fullyParallel project then _ else _).
    assert (title start = name project ∧ _type start = TProject) as Hstart
      by (subst start; by destruct (_fullyParallel project)).
    revert Hstart. generalize start. clear.
    induction files as [|f files IH]; intros projectSuite Hstart; [done|].
    cbn [foldl]. apply IH.
    destruct (_ !! f) as [fileSuite|]; [|done].
    destruct (foldl_addSuite_shape
                (buildFileSuiteForProject project fileSuite) projectSuite
                (seq 0 (repeatEach project))) as [-> ->].
    done. }
  destruct (Hfocus built (testFileFilters options)) as [Ht1 Hty1].
  destruct (Htitle (filterByFocusedLine built (testFileFilters options))
              (titleMatcher project options)) as [Ht2 Hty2].
  destruct (filterTestsRemoveEmptySuites _ _) as [[] s']; [|done].
  intros [= <-]. simpl in Ht2, Hty2. split; congruence.
Qed.

(** C7.  When focused tests are forbidden, the errors of the check are
    appended after the duplicate-title errors, one per item that
    [_getOnlyItems] returns for the root that holds the suites of the
    top-level projects and nothing else, taken before the only-filter is
    applied and before any dependency suite is prepended; the error of an
    item quotes its title path without the first two segments and carries
    its location.  With title paths that follow the parents, the two
    segments left out are the empty title of the root and the name of a
    top-level project, not the file: every reported item lies in the
    suite of a top-level project, and unless it is that suite itself, its
    error quotes the title path it has below the project suite, which
    for an item of a child that is not a describe block starts with the
    title of that child, the file suite. *)
Theorem forbid_only_errors_name_path_below_project config options w root w' :
  TitlePathsFollowParents →
  FiltersKeepTitleAndType →
  forbidOnly config = true →
  loadAllTests config options w = (Returned root, w') →
  ∃ r fileSuits w1 topRoot,
    Stages config options w r fileSuits w1 topRoot root ∧
    _entries topRoot = (inl <$> topLevelSuites options r fileSuits) ∧
    let items := _getOnlyItems topRoot in
    let reported :=
      drop (length (errors w1 ++ createDuplicateTitlesErrors config fileSuits))
           (errors w') in
    errors w' = errors w1 ++ createDuplicateTitlesErrors config fileSuits ++
                reported ∧
    length reported = length items ∧
    (∀ i item, items !! i = Some item →
       reported !! i =
       Some {| message :=
                 "Error: focused item found in the --forbid-only mode: " +:+
                 dquote +:+
                 String.concat " " (drop 2 (item_titlePath item)) +:+ dquote;
               location := item_location item |}) ∧
    ∀ item, item ∈ items →
      ∃ project files projectSuite,
        project ∈ topLevelProjects r ∧
        JsMap.get (filesToRunByProject r) project = Some files ∧
        createProjectSuite fileSuits project options files
        = Some projectSuite ∧
        inl projectSuite ∈ _entries topRoot ∧
        take 2 (item_titlePath item) = [EmptyString; name project] ∧
        (item_titlePath item = [EmptyString; name project] ∨
         ∃ below,
           below ∈ itemsBelow projectSuite ∧
           item = prefixed EmptyString (prefixed (name project) below) ∧
           forbidOnlyError item =
             {| message :=
                  "Error: focused item found in the --forbid-only mode: " +:+
                  dquote +:+ String.concat " " (item_titlePath below) +:+
                  dquote;
                location := item_location below |} ∧
           ∀ child,
             inl child ∈ _entries projectSuite →
             below ∈ _getOnlyItems child →
             _type child ≠ TDescribe →
             ∃ rest, item_titlePath below = title child :: rest).
Proof.
  intros Hpaths Hfilters Hforbid Hrun.
  open_run Hrun r fileSuits w1 topRoot Hst Hcalls Herr.
  destruct (Stages_entries _ _ _ _ _ _ _ _ Hst) as [Htop _].
  split; [done|]. simpl.
  unfold forbidOnlyErrors in Herr. rewrite Hforbid in Herr.
  rewrite Herr, (assoc_L (++)), drop_app_length, <-(assoc_L (++)).
  split_and!; [done|by rewrite length_map| |].
  { intros i item Hitem.
    change (List.map ?f ?l) with (f <$> l).
    by rewrite list_lookup_fmap, Hitem. }
  intros item Hitem.
  destruct Hst as (_ & _ & Hcompose & _).
  apply attachProjectSuites_add_shape in Hcompose as (Htitle & Htype & Honly).
  simpl in Htitle, Htype, Honly.
  destruct (Hpaths topRoot item) as [[Hfocus _]|(inTree & HinTree & ->)];
    [by rewrite Htype|done|congruence|].
  rewrite Htitle.
  unfold itemsBelow in HinTree.
  apply list_elem_of_In, in_flat_map in HinTree as (entry & Hentry & Hin).
  apply list_elem_of_In in Hentry, Hin. pose proof Hentry as Hsuite.
  rewrite Htop in Hsuite.
  apply list_elem_of_fmap in Hsuite as (projectSuite & -> & Hsuite).
  apply list_elem_of_omap in Hsuite as (project & Hproject & Hcreate).
  destruct (JsMap.get (filesToRunByProject r) project) as [files|] eqn:Hfiles;
    [simpl in Hcreate|done].
  destruct (createProjectSuite_title _ _ _ _ _ Hfilters Hcreate)
    as [Hname Hprojecttype].
  exists project, files, projectSuite. split_and!; [done..| |];
    (destruct (Hpaths projectSuite inTree)
       as [[_ Hself]|(below & Hbelow & ->)];
       [by rewrite Hprojecttype|done|..]); simpl; rewrite ?Hself, Hname;
    [done..|by left|].
  right. exists below. split_and!; [done..|].
  intros child _ Hchild Htypec.
  destruct (Hpaths child below Htypec Hchild)
    as [[_ Hself]|(inner & _ & ->)]; eauto.
Qed.

(** A run of the assembly that returns, state by state. *)
Lemma assembleRoot_Returned_states config options r fileSuits w
    (root : Suite) w' :
  assembleRoot config options r fileSuits w = (Returned root, w') →
  ∃ topRoot w2,
    errors_push (createDuplicateTitlesErrors config fileSuits) w
    = (Returned (), w2) ∧
    composeTopLevel options r fileSuits = Returned topRoot ∧
    complainAboutOnly config topRoot w2 = (Returned (), w') ∧
    prependDependencies options r fileSuits (filterOnly topRoot)
    = Returned root.
Proof.
  unfold assembleRoot.
  intros ([] & w2 & Hpush & H)%Run_bind_Returned.
  apply Run_bind_Returned in H as (top & w3 & [Htop ->]%lift_inv & H).
  apply Run_bind_Returned in H as ([] & w4 & Hc & H).
  apply Run_bind_Returned in H as (root' & w5 & [Hdep ->]%lift_inv & [= -> <-]).
  exists top, w2. done.
Qed.

(** C9.  The forbid-only errors of a run are those of the focused items
    of the root that holds the top-level project suites only, and the
    only-filter is applied to that root: the errors, the final state and
    the filtered root are those of the same assembly with no dependency
    project at all.  Every suite of a dependency project then becomes a
    child of the returned root as [createProjectSuite] composed it, so no
    focused item of a dependency suite is reported or seen by the
    only-filter. *)
Theorem dependency_suites_bypass_only_handling config options w root w' :
  loadAllTests config options w = (Returned root, w') →
  ∃ r fileSuits w1 topRoot,
    Stages config options w r fileSuits w1 topRoot root ∧
    _entries topRoot = (inl <$> topLevelSuites options r fileSuits) ∧
    errors w' = errors w1 ++ createDuplicateTitlesErrors config fileSuits ++
                forbidOnlyErrors config topRoot ∧
    assembleRoot config options (withoutDependencies r) fileSuits w1
    = (Returned (filterOnly topRoot), w') ∧
    _entries root = (inl <$> reverse (dependencySuites options r fileSuits)) ++
                    _entries (filterOnly topRoot) ∧
    ∀ d, d ∈ dependencySuites options r fileSuits → inl d ∈ _entries root.
Proof.
  intros Hrun.
  pose proof Hrun as (r & fileSuits & w1 & topRoot & Hst & _ & Herr)%loadAllTests_Returned.
  exists r, fileSuits, w1, topRoot. split; [done|].
  destruct (Stages_entries _ _ _ _ _ _ _ _ Hst) as [Htop Hroot].
  split_and!; [done..| |done|].
  - destruct Hst as (Hr & Hload & Hcompose & _).
    unfold loadAllTests in Hrun.
    apply Run_bind_Returned in Hrun as (r' & w0 & [Hr' ->]%lift_inv & Hrun).
    rewrite Hr in Hr'. injection Hr' as ->.
    apply Run_bind_Returned in Hrun as (fileSuits' & w1' & Hload' & Hrun).
    rewrite Hload in Hload'. injection Hload' as <- <-.
    apply assembleRoot_Returned_states in Hrun
      as (topRoot' & w2 & Hpush & Hcompose' & Hcomplain & _).
    rewrite Hcompose in Hcompose'. injection Hcompose' as <-.
    unfold assembleRoot, mbind, Run_bind. rewrite Hpush.
    change (composeTopLevel options (withoutDependencies r) fileSuits)
      with (composeTopLevel options r fileSuits).
    unfold lift at 1. rewrite Hcompose, Hcomplain. done.
  - intros d Hd. rewrite Hroot. apply elem_of_app. left.
    apply list_elem_of_fmap. exists d. split; [done|]. by apply elem_of_reverse.
Qed.

(** *** C4 *)

(** The closure [titleMatcher] accepts a test exactly when [grepInvert]
    does not match its joined title path, [grep] matches it, and the
    external title matcher is absent or matches it. *)
Lemma titleMatcher_true_iff project options test :
  let grepTitle := String.concat " " (test_titlePath test) in
  titleMatcher project options test = true ↔
  grepInvertMatches project grepTitle = false ∧
  grepMatches project grepTitle = true ∧
  (testTitleMatcher options = None ∨
   ∃ matcher, testTitleMatcher options = Some matcher ∧
              matcher grepTitle = true).
Proof.
  unfold titleMatcher, grepInvertMatches, grepMatches. simpl.
  generalize (String.concat " " (test_titlePath test)). intros grepTitle.
  assert (createTitleMatcher (grep project) grepTitle &&
            match testTitleMatcher options with
            | Some matcher => matcher grepTitle
            | None => true
            end = true ↔
          createTitleMatcher (grep project) grepTitle = true ∧
          (testTitleMatcher options = None ∨
           ∃ matcher, testTitleMatcher options = Some matcher ∧
                      matcher grepTitle = true)) as Hrest.
  { rewrite andb_true_iff.
    destruct (testTitleMatcher options) as [matcher|]; split.
    - intros [? ?]. eauto.
    - intros [? [?|(? & [= <-] & ?)]]; done.
    - intros [? _]. eauto.
    - intros [? _]. done. }
  destruct (grepInvert project) as [patterns|];
    [destruct (createTitleMatcher patterns grepTitle)|].
  - split; [done|]. by intros [? _].
  - rewrite Hrest. tauto.
  - rewrite Hrest. tauto.
Qed.

(** C4.  The suite of a top-level project is composed with the options
    of the run: [createProjectSuite] hands the suite built for the
    project, filtered by focused line, to [filterTestsRemoveEmptySuites]
    together with [titleMatcher].  With a [filterTestsRemoveEmptySuites]
    that keeps exactly the tests that satisfy its predicate, a test of
    that suite is retained, that is, is a test of the suite attached to
    the root, exactly when [grepInvert] does not match its joined title
    path, [grep] matches it, and the external title matcher is absent or
    matches it. *)
Theorem top_level_tests_retained_iff config options w root w' :
  FilterKeepsExactlyMatching →
  loadAllTests config options w = (Returned root, w') →
  ∃ r fileSuits w1 topRoot,
    Stages config options w r fileSuits w1 topRoot root ∧
    _entries topRoot = (inl <$> topLevelSuites options r fileSuits) ∧
    ∀ p files,
      p ∈ topLevelProjects r →
      JsMap.get (filesToRunByProject r) p = Some files →
      let retained := createProjectSuite fileSuits p options files in
      (∀ s, retained = Some s → inl s ∈ _entries topRoot) ∧
      ∀ T, T ∈ allTests (focusedProjectSuite fileSuits p options files) →
        let grepTitle := String.concat " " (test_titlePath T) in
        T ∈ retainedTests retained ↔
        grepInvertMatches p grepTitle = false ∧
        grepMatches p grepTitle = true ∧
        (testTitleMatcher options = None ∨
         ∃ matcher, testTitleMatcher options = Some matcher ∧
                    matcher grepTitle = true).
Proof.
  intros Hfilter Hrun. open_run Hrun r fileSuits w1 topRoot Hst Hcalls Herr.
  destruct (Stages_entries _ _ _ _ _ _ _ _ Hst) as [Htop _].
  split; [done|]. intros p files Hp Hfiles. simpl. split.
  - intros s Hs. rewrite Htop. apply list_elem_of_fmap. exists s.
    split; [done|]. apply list_elem_of_omap. exists p. split; [done|].
    by rewrite Hfiles.
  - intros T HT. rewrite <-titleMatcher_true_iff.
    unfold createProjectSuite. fold (focusedProjectSuite fileSuits p options files).
    destruct (filterTestsRemoveEmptySuites _ _) as [nonEmpty s'] eqn:Hf.
    destruct (Hfilter _ _ _ _ Hf) as [Hiff Hempty].
    destruct nonEmpty; simpl.
    + rewrite Hiff. tauto.
    + rewrite <-(Hempty eq_refl), Hiff. tauto.
Qed.

(** *** C8 *)

Lemma titleMatcher_dependencyOptions project options test :
  titleMatcher project (dependencyOptions options) test =
  negb (grepInvertMatches project (String.concat " " (test_titlePath test)))
  && grepMatches project (String.concat " " (test_titlePath test)).
Proof.
  unfold titleMatcher, grepInvertMatches, grepMatches. simpl.
  generalize (String.concat " " (test_titlePath test)). intros grepTitle.
  destruct (grepInvert project) as [patterns|];
    [destruct (createTitleMatcher patterns grepTitle)|]; simpl;
    by rewrite ?andb_true_r.
Qed.

(** C8.  The suite of a dependency project is composed with the file
    filters emptied and the external title matcher removed, and with
    the title filter that still applies the project's own [grep] and
    [grepInvert].  With a [filterTestsRemoveEmptySuites] that keeps only
    tests satisfying the predicate it is given, every test of a
    dependency suite in the returned root matches the project's [grep]
    and not its [grepInvert]: the tests that [grep] does not match are
    not in the suite. *)
Theorem dependency_suite_keeps_project_patterns config options w root w' :
  FilterKeepsMatching →
  loadAllTests config options w = (Returned root, w') →
  ∃ r fileSuits w1 topRoot,
    Stages config options w r fileSuits w1 topRoot root ∧
    testFileFilters (dependencyOptions options) = [] ∧
    testTitleMatcher (dependencyOptions options) = None ∧
    (∀ p t,
       titleMatcher p (dependencyOptions options) t =
       negb (grepInvertMatches p (String.concat " " (test_titlePath t)))
       && grepMatches p (String.concat " " (test_titlePath t))) ∧
    ∀ p files d,
      p ∈ dependencyProjects r →
      JsMap.get (filesToRunByProject r) p = Some files →
      createProjectSuite fileSuits p (dependencyOptions options) files
      = Some d →
      inl d ∈ _entries root ∧
      ∀ t, t ∈ allTests d →
           grepMatches p (String.concat " " (test_titlePath t)) = true ∧
           grepInvertMatches p (String.concat " " (test_titlePath t)) = false.
Proof.
  intros Hfilter Hrun. open_run Hrun r fileSuits w1 topRoot Hst Hcalls Herr.
  destruct (Stages_entries _ _ _ _ _ _ _ _ Hst) as [_ Hroot].
  split_and!; [done..|intros p t; apply titleMatcher_dependencyOptions|].
  intros p files d Hp Hfiles Hd. split.
  - rewrite Hroot. apply elem_of_app. left.
    apply list_elem_of_fmap. exists d. split; [done|].
    apply elem_of_reverse, list_elem_of_omap. exists p. split; [done|].
    by rewrite Hfiles.
  - intros t Ht. unfold createProjectSuite in Hd.
    destruct (filterTestsRemoveEmptySuites _ _) as [[] d'] eqn:Hf; [|done].
    injection Hd as ->.
    pose proof (Hfilter _ _ _ _ Hf t Ht) as Hkeep.
    rewrite titleMatcher_dependencyOptions in Hkeep.
    apply andb_true_iff in Hkeep as [Hinv Hgrep].
    by apply negb_true_iff in Hinv.
Qed.

(** *** C2 *)

(** Whether or not the title was seen before, the step records the
    current test under it: the entry of a title is the latest test, not
    the first one. *)
Lemma duplicateTitlesStep_overwrites config
    (testsByFullTitle : gmap string TestCase) (errs : list TestError) test :
  (duplicateTitlesStep config (testsByFullTitle, errs) test).1 =
  <[String.concat " › " (drop 1 (test_titlePath test)) := test]>
    testsByFullTitle.
Proof. done. Qed.

(** A repeated title is reported at the location of the repeating test
    and with the location of the test the map holds for that title. *)
Lemma duplicateTitlesStep_reports config
    (testsByFullTitle : gmap string TestCase) (errs : list TestError)
    test existingTest :
  testsByFullTitle !! String.concat " › " (drop 1 (test_titlePath test))
  = Some existingTest →
  ∃ e, (duplicateTitlesStep config (testsByFullTitle, errs) test).2
       = errs ++ [e] ∧
       location e = Some (test_location test) ∧
       message e =
         "Error: duplicate test title " +:+ dquote +:+
         String.concat " › " (drop 1 (test_titlePath test)) +:+ dquote +:+
         ", first declared in " +:+
         path_relative (rootDir config) (file (test_location existingTest))
         +:+ ":" +:+ pretty (line (test_location existingTest)).
Proof.
  intros Hget. unfold duplicateTitlesStep. rewrite Hget. simpl. eauto.
Qed.
(** The scenario of the specification: when a file declares a title
    twice, there is one error, located at the second declaration and
    naming the first. *)
Lemma two_declarations_report_the_first config (fileSuite : Suite)
    (first second : TestCase) :
  allTests fileSuite = [first; second] →
  drop 1 (test_titlePath first) = drop 1 (test_titlePath second) →
  createDuplicateTitlesErrors config [fileSuite] =
  [{| message :=
        "Error: duplicate test title " +:+ dquote +:+
        String.concat " › " (drop 1 (test_titlePath second)) +:+ dquote +:+
        ", first declared in " +:+
        buildItemLocation (rootDir config) (Some (test_location first));
      location := Some (test_location second) |}].
Proof.
  intros Htests Hsame. unfold createDuplicateTitlesErrors. simpl.
  rewrite Htests. simpl. rewrite Hsame, lookup_empty, lookup_insert_eq. done.
Qed.
End PipelineFacts.

(** ** The worked configuration *)

(** Induction on suites, with the property available for the suites among
    the children. *)
Lemma Suite_nested_ind (P : Suite → Prop) :
  (∀ s, Forall (λ e, match e with inl c => P c | inr _ => True end)
               (_entries s) → P s) →
  ∀ s, P s.
Proof.
  intros H. fix go 1. intros [t ty rf pc pm o es]. apply H. simpl.
  induction es as [|[c|t'] es IH]; constructor; auto.
Qed.

(** The filter of the worked configuration keeps only tests that satisfy
    the predicate. *)
Lemma Scenario_filterTests_keeps keep s t :
  t ∈ Scenario.allTests (Scenario.filterTests keep s) → keep t = true.
Proof.
  revert t. induction s as [s IH] using Suite_nested_ind. intros t.
  destruct s as [ti ty rf pc pm o es]. simpl in IH.
  cbn [Scenario.filterTests Scenario.allTests with_entries _entries].
  induction IH as [|e es He Hes IHes]; [by intros ?%elem_of_nil|].
  cbn [omap list_omap].
  destruct e as [c|t'].
  - destruct (_entries (Scenario.filterTests keep c)) eqn:Hc; [exact IHes|].
    cbn [List.flat_map]. intros [Hin|Hin]%elem_of_app; [|by apply IHes].
    by apply He.
  - destruct (keep t') eqn:Hk; [|exact IHes].
    cbn [List.flat_map]. intros [Hin|Hin]%elem_of_app; [|by apply IHes].
    by apply list_elem_of_singleton in Hin as ->.
Qed.

Lemma Scenario_FilterKeepsMatching :
  FilterKeepsMatching (imports := Scenario.imports).
Proof.
  intros s s' keep nonEmpty [= _ <-] t. apply Scenario_filterTests_keeps.
Qed.

(** The filter of the worked configuration keeps exactly the tests that
    satisfy the predicate. *)
Lemma Scenario_filterTests_exact keep s t :
  t ∈ Scenario.allTests (Scenario.filterTests keep s) ↔
  t ∈ Scenario.allTests s ∧ keep t = true.
Proof.
  revert t. induction s as [s IH] using Suite_nested_ind. intros t.
  destruct s as [ti ty rf pc pm o es]. simpl in IH.
  cbn [Scenario.filterTests Scenario.allTests with_entries _entries].
  induction IH as [|e es He Hes IHes].
  - simpl. rewrite elem_of_nil. tauto.
  - cbn [omap list_omap List.flat_map]. rewrite (elem_of_app _ _ t).
    destruct e as [c|t'].
    + destruct (_entries (Scenario.filterTests keep c)) eqn:Hc.
      * assert (¬ (t ∈ Scenario.allTests c ∧ keep t = true)) as Hno.
        { rewrite <-He.
          destruct (Scenario.filterTests keep c) as [? ? ? ? ? ? es'].
          simpl in Hc. subst es'. apply not_elem_of_nil. }
        rewrite IHes. tauto.
      * cbn [List.flat_map]. rewrite elem_of_app, IHes, He. tauto.
    + destruct (keep t') eqn:Hk.
      * cbn [List.flat_map]. rewrite elem_of_app, IHes, !list_elem_of_singleton.
        split; [intros [->|?]; tauto|tauto].
      * rewrite IHes, list_elem_of_singleton.
        split; [tauto|]. intros [[->|?] ?]; [congruence|tauto].
Qed.

Lemma Scenario_FilterKeepsExactlyMatching :
  FilterKeepsExactlyMatching (imports := Scenario.imports).
Proof.
  intros s s' keep nonEmpty [= <- <-]. split.
  - intros t. apply Scenario_filterTests_exact.
  - change (allTests ?x) with (Scenario.allTests x).
    destruct (Scenario.filterTests keep s) as [? ? ? ? ? ? [|e es]]; simpl; done.
Qed.

(** The title paths of the worked configuration follow the parents. *)
Lemma Scenario_TitlePathsFollowParents :
  TitlePathsFollowParents (imports := Scenario.imports).
Proof.
  intros parent item Htype Hitem.
  change (item ∈ Scenario._getOnlyItems parent) in Hitem.
  destruct parent as [ti ty rf pc pm o es]. simpl in Htype.
  assert (item ∈ prefixed ti <$>
            ((if o then [{| item_titlePath := []; item_location := None |}]
              else []) ++
             List.flat_map
               (λ e, match e with
                     | inl c => Scenario._getOnlyItems c
                     | inr _ => []
                     end) es ++
             List.flat_map
               (λ e, match e with
                     | inl _ => []
                     | inr t => if test_only t then [focusedTestItem t] else []
                     end) es)) as Hin.
  { destruct ty; try done; simpl in Hitem; by destruct ti. }
  clear Hitem. apply list_elem_of_fmap in Hin as (x & -> & Hx). simpl.
  apply elem_of_app in Hx as [Hx|Hx].
  - destruct o; [|by apply elem_of_nil in Hx].
    apply list_elem_of_singleton in Hx as ->. by left.
  - right. exists x. split; [|done]. unfold itemsBelow. simpl.
    apply list_elem_of_In, in_flat_map.
    apply elem_of_app in Hx as [Hx|Hx];
      apply list_elem_of_In, in_flat_map in Hx as (e & He & Hx);
      exists e; (split; [done|]); by destruct e.
Qed.

(** The filters of the worked configuration replace the children only. *)
Lemma Scenario_FiltersKeepTitleAndType :
  FiltersKeepTitleAndType (imports := Scenario.imports).
Proof.
  split; [done|]. intros s keep. by destruct s.
Qed.

Section ScenarioFacts.
Import Scenario ScenarioModules.

Local Abbreviation run :=
  (loadAllTests (imports := imports) (config true) (options None) start).

Lemma Scenario_run_returns : run = (Returned root, final).
Proof. vm_compute. reflexivity. Defined.

Lemma Scenario_resolved :
  resolveFiles (imports := imports) (config true) (options None)
  = Returned resolved.
Proof. vm_compute. reflexivity. Defined.

Lemma Scenario_resolvedForE2e :
  resolveFiles (imports := imports) (config true) (options (Some ["e2e"]))
  = Returned resolvedForE2e.
Proof. vm_compute. reflexivity. Defined.

Lemma Scenario_loaded :
  loadFileSuites (imports := imports) (config true)
    (filesToRunByProject resolved) start
  = (Returned loadedSuites, loaded.2).
Proof. vm_compute. reflexivity. Defined.

Lemma Scenario_resolvedForFlaky :
  resolveFiles (imports := imports) flakyConfig (options None)
  = Returned resolvedForFlaky.
Proof. vm_compute. reflexivity. Defined.

(** Every file of the worked configuration loads; in the configuration
    of [flaky] the second file does not. *)
Lemma Scenario_LoadingCompletes :
  LoadingCompletes (imports := imports) (config true) (options None) start.
Proof.
  do 4 eexists. split; [exact Scenario_resolved|]. vm_compute. reflexivity.
Defined.

Lemma Scenario_flaky_loading_fails :
  ¬ LoadingCompletes (imports := imports) flakyConfig (options None) start.
Proof.
  intros (r & fileSuits & loaderHost & w1 & Hr & Hload).
  rewrite Scenario_resolvedForFlaky in Hr. injection Hr as <-.
  vm_compute in Hload. discriminate Hload.
Defined.

(** The root holds the two dependency suites, [auth] before [db], and
    then the suite of [e2e] narrowed to its focused test; the focused
    test of [db] is not reported, and the error for the focused test of
    [e2e] names it with its file. *)
Example Scenario_root_titles :
  title <$> suites root = ["auth"; "db"; "e2e"] ∧
  message <$> errors final =
    ["Error: focused item found in the --forbid-only mode: " +:+ dquote +:+
     "b.spec.ts opens" +:+ dquote] ∧
  calls final =
    [LoadTestFile "a.spec.ts"; LoadTestFile "b.spec.ts";
     LoadTestFile "db.setup.ts"; LoadTestFile "auth.setup.ts"; Stop].
Proof. vm_compute. done. Qed.

(** *** C1 *)

(** C1 fails as stated: when [loadTestFile] throws on the second file
    of [flaky], the run throws and [stop()] has not been called. *)
Lemma stop_skipped_when_loadTestFile_throws :
  let result :=
    loadAllTests (imports := imports) flakyConfig (options None) start in
  result.1 = Thrown "loader crashed" ∧
  calls result.2 = [LoadTestFile "a.spec.ts"; LoadTestFile "broken.spec.ts"] ∧
  stops (calls result.2) ≠ 1.
Proof. vm_compute. split_and!; [reflexivity..|discriminate]. Qed.

(** C1, as amended, on the run of the worked configuration, where
    [stop()] is called once, and on the run of [flaky], which fails with
    the error of the loader. *)
Lemma stop_called_once_witness :
  run = (Returned root, final) ∧
  LoadingCompletes (imports := imports) (config true) (options None) start ∧
  stops (calls final) = stops (calls start) + 1 ∧
  let failed :=
    loadAllTests (imports := imports) flakyConfig (options None) start in
  ¬ LoadingCompletes (imports := imports) flakyConfig (options None) start ∧
  stops (calls failed.2) = stops (calls start) ∧
  ∃ e, failed.1 = Thrown e.
Proof.
  split_and!; [exact Scenario_run_returns|exact Scenario_LoadingCompletes| |].
  2: cbv zeta; split_and!; [exact Scenario_flaky_loading_fails| |].
  - exact (proj1 (proj1 (stop_called_once_iff_loading_completes
                           (config true) (options None) start _ _
                           Scenario_run_returns)
                    Scenario_LoadingCompletes)).
  - exact (proj1 (proj2 (stop_called_once_iff_loading_completes
                           flakyConfig (options None) start _ _
                           (surjective_pairing _))
                    Scenario_flaky_loading_fails)).
  - destruct (proj2 (proj2 (stop_called_once_iff_loading_completes
                              flakyConfig (options None) start _ _
                              (surjective_pairing _))
                       Scenario_flaky_loading_fails)) as (e & He & _).
    exists e. exact He.
Defined.

(** *** C5 *)

(** C5 fails as stated: with only [e2e] selected, the initial collection
    step does not visit its dependency [db], so the list [db] is loaded
    with is not a list of that step. *)
Lemma dependency_outside_selection_has_no_baseline :
  resolveFiles (imports := imports) (config true) (options (Some ["e2e"]))
  = Returned resolvedForE2e ∧
  db ∈ dependencyProjects resolvedForE2e ∧
  JsMap.get (filesToRunByProject resolvedForE2e) db = Some ["db.setup.ts"] ∧
  JsMap.get (allFilesForProject resolvedForE2e) db = None ∧
  ¬ (∀ p, p ∈ dependencyProjects resolvedForE2e →
          JsMap.get (filesToRunByProject resolvedForE2e) p =
          JsMap.get (allFilesForProject resolvedForE2e) p).
Proof.
  split_and!; [exact Scenario_resolvedForE2e|left|reflexivity..|].
  intros H. specialize (H db ltac:(left)). vm_compute in H. discriminate.
Qed.

(** C5, as amended, for [db] when only [e2e] is selected. *)
Lemma dependency_files_witness :
  resolveFiles (imports := imports) (config true) (options (Some ["e2e"]))
  = Returned resolvedForE2e ∧
  db ∈ dependencyProjects resolvedForE2e ∧
  ∃ files,
    JsMap.get (filesToRunByProject resolvedForE2e) db = Some files ∧
    Collected (imports := imports) db files.
Proof.
  assert (db ∈ dependencyProjects resolvedForE2e) as Hdb by left.
  split_and!; [exact Scenario_resolvedForE2e|exact Hdb|].
  destruct (dependency_files_are_collected_lists
              (config true) (options (Some ["e2e"])) resolvedForE2e db
              Scenario_resolvedForE2e Hdb)
    as (files & selected & Hget & Hcol & _).
  exists files. split; assumption.
Defined.

(** *** C6 *)

(** C6 fails as stated: [b.spec.ts] is in the file list of [flaky], and
    the run, whose loader throws on the file before it, never loads
    it. *)
Lemma file_after_failed_load_is_not_loaded :
  let result :=
    loadAllTests (imports := imports) flakyConfig (options None) start in
  resolveFiles (imports := imports) flakyConfig (options None)
  = Returned resolvedForFlaky ∧
  inSomeFileList (filesToRunByProject resolvedForFlaky) "b.spec.ts" ∧
  loads (calls result.2) "b.spec.ts" = 0 ∧
  ¬ (∀ f, inSomeFileList (filesToRunByProject resolvedForFlaky) f →
          loads (calls result.2) f = 1).
Proof.
  assert (inSomeFileList (filesToRunByProject resolvedForFlaky) "b.spec.ts")
    as Hin.
  { exists flaky, ["a.spec.ts"; "broken.spec.ts"; "b.spec.ts"].
    split; [left|right; right; left]. }
  split_and!; [exact Scenario_resolvedForFlaky|exact Hin|reflexivity|].
  intros H. specialize (H _ Hin). vm_compute in H. discriminate.
Qed.

(** C6, as amended, on the run of the worked configuration: [a.spec.ts]
    is in the lists of [e2e] and of [smoke] and is loaded once. *)
Lemma each_file_loaded_at_most_once_witness :
  resolveFiles (imports := imports) (config true) (options None)
  = Returned resolved ∧
  run = (Returned root, final) ∧
  LoadingCompletes (imports := imports) (config true) (options None) start ∧
  inSomeFileList (filesToRunByProject resolved) "a.spec.ts" ∧
  ∃ cs, calls final = calls start ++ cs ∧ loads cs "a.spec.ts" = 1.
Proof.
  assert (inSomeFileList (filesToRunByProject resolved) "a.spec.ts") as Hin.
  { exists smoke, ["a.spec.ts"]. split; [right; left|left]. }
  split_and!; [exact Scenario_resolved|exact Scenario_run_returns|
               exact Scenario_LoadingCompletes|exact Hin|].
  destruct (each_file_loaded_at_most_once (config true) (options None)
              resolved start _ _ Scenario_resolved Scenario_run_returns)
    as (cs & Hcs & _ & _ & Hone & _).
  exists cs. split; [exact Hcs|].
  exact (Hone Scenario_LoadingCompletes _ Hin).
Defined.

(** *** C2 *)

(** C2 fails on a third declaration of a title: the error for the test
    of line 13 names line 8, the second declaration, as the place where
    the title was first declared, and not line 3. *)
Theorem duplicate_error_names_latest_declaration :
  createDuplicateTitlesErrors (imports := imports) (config true) [triple_spec]
  = [ {| message :=
           "Error: duplicate test title " +:+ dquote +:+ "suite A › does X" +:+
           dquote +:+ ", first declared in t.spec.ts:3";
         location :=
           Some {| file := "t.spec.ts"; line := 8; column := 1 |} |};
      {| message :=
           "Error: duplicate test title " +:+ dquote +:+ "suite A › does X" +:+
           dquote +:+ ", first declared in t.spec.ts:8";
         location :=
           Some {| file := "t.spec.ts"; line := 13; column := 1 |} |} ].
Proof. vm_compute. reflexivity. Qed.

(** *** C3, C4, C7, C8, C9, C10 *)

(** C3 on the run of the worked configuration. *)
Lemma dependency_suites_precede_witness :
  run = (Returned root, final) ∧
  ∃ r fileSuits topRoot,
    _entries root =
    (inl <$> reverse (dependencySuites (imports := imports) (options None)
                        r fileSuits)) ++
    _entries (filterOnly topRoot).
Proof.
  split; [exact Scenario_run_returns|].
  destruct (dependency_suites_precede_top_level (config true) (options None)
              start root final Scenario_run_returns)
    as (r & fileSuits & w1 & topRoot & _ & _ & Hroot & _).
  exists r, fileSuits, topRoot. exact Hroot.
Defined.

(** C10 on the run of the worked configuration. *)
Lemma dependency_suites_reverse_witness :
  run = (Returned root, final) ∧
  ∃ r fileSuits,
    take (length (dependencySuites (imports := imports) (options None)
                    r fileSuits)) (_entries root) =
    (inl <$> reverse (dependencySuites (imports := imports) (options None)
                        r fileSuits)).
Proof.
  split; [exact Scenario_run_returns|].
  destruct (dependency_suites_in_reverse_order (config true) (options None)
              start root final Scenario_run_returns)
    as (r & fileSuits & w1 & topRoot & _ & _ & Htake & _).
  exists r, fileSuits. exact Htake.
Defined.

(** C7 on the run of the worked configuration, which forbids focused
    tests: the one focused test of a top-level project is [opens] of
    [b.spec.ts], and its error names it with the file. *)
Lemma forbid_only_names_file_witness :
  TitlePathsFollowParents (imports := imports) ∧
  FiltersKeepTitleAndType (imports := imports) ∧
  forbidOnly (config true) = true ∧
  run = (Returned root, final) ∧
  errors final =
    [{| message :=
          "Error: focused item found in the --forbid-only mode: " +:+
          dquote +:+ "b.spec.ts opens" +:+ dquote;
        location := Some {| file := "b.spec.ts"; line := 2; column := 1 |} |}] ∧
  ∃ fileSuits w1 topRoot,
    length (drop (length (errors w1 ++
                          createDuplicateTitlesErrors (imports := imports)
                            (config true) fileSuits))
                 (errors final)) =
    length (_getOnlyItems topRoot) ∧
    ∀ item, item ∈ _getOnlyItems topRoot →
            ∃ project, take 2 (item_titlePath item) = [EmptyString; name project].
Proof.
  split_and!; [exact Scenario_TitlePathsFollowParents|
               exact Scenario_FiltersKeepTitleAndType|reflexivity|
               exact Scenario_run_returns|reflexivity|].
  destruct (forbid_only_errors_name_path_below_project (config true)
              (options None) start root final
              Scenario_TitlePathsFollowParents
              Scenario_FiltersKeepTitleAndType eq_refl Scenario_run_returns)
    as (r & fileSuits & w1 & topRoot & _ & _ & _ & Hlen & _ & Hitems).
  exists fileSuits, w1, topRoot. split; [exact Hlen|].
  intros item Hitem.
  destruct (Hitems item Hitem) as (project & ? & ? & _ & _ & _ & _ & Hpath & _).
  exists project. exact Hpath.
Defined.

(** C4 on the run of the worked configuration: of the two tests of
    [a.spec.ts] below the suite of [e2e], whose [grepInvert] is [@slow],
    the first is retained and the second is not. *)
Lemma top_level_tests_retained_witness :
  FilterKeepsExactlyMatching (imports := imports) ∧
  run = (Returned root, final) ∧
  let retained :=
    retainedTests (imports := imports)
      (createProjectSuite (imports := imports) loadedSuites e2e (options None)
         ["a.spec.ts"; "b.spec.ts"]) in
  doesX_e2e ∈ retained ∧ doesY_e2e ∉ retained.
Proof.
  split_and!; [exact Scenario_FilterKeepsExactlyMatching|
               exact Scenario_run_returns|].
  destruct (top_level_tests_retained_iff (config true) (options None) start
              root final Scenario_FilterKeepsExactlyMatching
              Scenario_run_returns)
    as (r & fileSuits & w1 & topRoot & (Hr & Hload & _) & _ & Hretained).
  rewrite Scenario_resolved in Hr. injection Hr as <-.
  rewrite Scenario_loaded in Hload. injection Hload as <- _.
  destruct (Hretained e2e ["a.spec.ts"; "b.spec.ts"] ltac:(left) eq_refl)
    as [_ Hiff].
  assert (∀ T, T = doesX_e2e ∨ T = doesY_e2e →
               T ∈ allTests (focusedProjectSuite (imports := imports)
                               loadedSuites e2e (options None)
                               ["a.spec.ts"; "b.spec.ts"])) as Hcomposed.
  { intros T [->| ->]; vm_compute; [left|right; left]. }
  split.
  - apply (Hiff doesX_e2e); [apply Hcomposed; by left|].
    split_and!; [reflexivity..|by left].
  - intros Hin. apply (Hiff doesY_e2e) in Hin as [Hinvert _];
      [|apply Hcomposed; by right].
    vm_compute in Hinvert. discriminate Hinvert.
Defined.

(** C9 on the run of the worked configuration. *)
Lemma dependency_suites_bypass_witness :
  run = (Returned root, final) ∧
  ∃ r fileSuits w1 topRoot,
    assembleRoot (imports := imports) (config true) (options None)
      (withoutDependencies r) fileSuits w1
    = (Returned (filterOnly topRoot), final) ∧
    ∀ d, d ∈ dependencySuites (imports := imports) (options None) r fileSuits →
         inl d ∈ _entries root.
Proof.
  split; [exact Scenario_run_returns|].
  destruct (dependency_suites_bypass_only_handling (config true)
              (options None) start root final Scenario_run_returns)
    as (r & fileSuits & w1 & topRoot & _ & _ & _ & Hsame & _ & Hin).
  exists r, fileSuits, w1, topRoot. split; [exact Hsame|exact Hin].
Defined.

(** C8 on the run of the worked configuration, whose filter keeps only
    matching tests. *)
Lemma dependency_suite_patterns_witness :
  FilterKeepsMatching (imports := imports) ∧
  run = (Returned root, final) ∧
  testTitleMatcher (dependencyOptions (options None)) = None.
Proof.
  split_and!; [exact Scenario_FilterKeepsMatching|exact Scenario_run_returns|].
  destruct (dependency_suite_keeps_project_patterns (config true)
              (options None) start root final Scenario_FilterKeepsMatching
              Scenario_run_returns)
    as (r & fileSuits & w1 & topRoot & _ & _ & Hnone & _).
  exact Hnone.
Defined.

(** The dependency [db] selects with [grep] the tests tagged [@setup]:
    its suite in the root holds [migrate @setup] and not [seed]. *)
Example Scenario_db_suite_tests :
  (λ s, test_titlePath <$> allTests s) <$> suites root !! 1
  = Some [["db"; "db.setup.ts"; "migrate @setup"]].
Proof. vm_compute. reflexivity. Qed.
End ScenarioFacts.

(** ** Further facts about the containers *)

Section JsMapMoreFacts.
Context {K V : Type} `{EqDecision K}.
Implicit Types (m : JsMap.t K V) (k : K) (v : V).

Lemma JsMap_get_is_Some m k : is_Some (JsMap.get m k) ↔ k ∈ JsMap.keys m.
Proof.
  unfold JsMap.keys. induction m as [|[k' v'] m IH]; simpl.
  - split; [by intros [? ?]|by intros ?%elem_of_nil].
  - destruct (decide (k' = k)) as [->|Hne].
    + split; [intros _; left|eauto].
    + rewrite IH. split; [by right|].
      intros [?|?]%elem_of_cons; [congruence|done].
Qed.

Lemma JsMap_set_notin m k v : k ∉ JsMap.keys m → JsMap.set m k v = m ++ [(k, v)].
Proof.
  unfold JsMap.keys. induction m as [|[k' v'] m IH]; simpl; [done|].
  intros [Hne Hni]%not_elem_of_cons.
  rewrite decide_False by done. f_equal. by apply IH.
Qed.

Lemma JsMap_get_elem m k v :
  NoDup (JsMap.keys m) → (k, v) ∈ m → JsMap.get m k = Some v.
Proof.
  unfold JsMap.keys. induction m as [|[k' v'] m IH]; simpl.
  - by intros _ ?%elem_of_nil.
  - intros [Hni Hnd]%NoDup_cons [[= <- <-]|Hin]%elem_of_cons.
    + by rewrite decide_True.
    + rewrite decide_False; [by apply IH|].
      intros ->. apply Hni. apply list_elem_of_fmap. by exists (k, v).
Qed.

Lemma JsMap_set_NoDup m k v :
  NoDup (JsMap.keys m) → NoDup (JsMap.keys (JsMap.set m k v)).
Proof.
  intros Hnd. destruct (decide (k ∈ JsMap.keys m)) as [Hin|Hni].
  - by rewrite keys_set_in.
  - rewrite keys_set_notin by done. apply NoDup_app. split_and!; [done| |].
    + by intros x Hx ->%list_elem_of_singleton.
    + apply NoDup_singleton.
Qed.
End JsMapMoreFacts.

Lemma JsSet_addAll_fresh {T} `{EqDecision T} (s xs : list T) :
  NoDup (s ++ xs) → JsSet.addAll s xs = s ++ xs.
Proof.
  unfold JsSet.addAll. revert s. induction xs as [|x xs IH]; intros s; simpl.
  - by rewrite app_nil_r.
  - intros Hnd. rewrite cons_middle, (assoc_L (++) s [x] xs) in Hnd |- *.
    rewrite <-IH by done. f_equal. unfold JsSet.add.
    rewrite decide_False; [done|].
    apply NoDup_app in Hnd as (Hnd & _ & _).
    apply NoDup_app in Hnd as (_ & Hdis & _).
    intros Hin. apply (Hdis _ Hin). left.
Qed.

(** ** Further properties of the pipeline *)

Local Set Warnings "-clear-no-such-hyp".

Section ResolutionFacts.
Context {TestFileFilter Shard FsCache LoaderHost : Type}.
Context {imports : Imports TestFileFilter Shard FsCache LoaderHost}.

Implicit Types (config : FullConfigInternal Shard)
               (options : LoadOptions TestFileFilter)
               (r : Resolved) (w : World)
               (m : FilesByProject).

(** *** Which projects are top-level *)

Lemma collectAllFiles_NoDup ps (fsCache fsCache' : FsCache) acc m :
  collectAllFiles ps fsCache acc = Returned (m, fsCache') →
  NoDup (JsMap.keys acc) → NoDup (JsMap.keys m).
Proof.
  revert fsCache acc. induction ps as [|q ps IH]; intros c acc; simpl.
  - by intros [= <- <-].
  - destruct (collectFilesForProject q c) as [[files|e] c1]; [|done].
    intros H Hnd. eapply IH; [exact H|]. by apply JsMap_set_NoDup.
Qed.

Lemma keepMatching_key matcher entry entry' :
  keepMatching matcher entry = Some entry' → entry'.1 = entry.1.
Proof.
  unfold keepMatching. destruct (matchingFiles matcher entry.2); [done|].
  by intros [= <-].
Qed.

Lemma filterFiles_omap matcher m :
  NoDup (JsMap.keys m) → filterFiles matcher m = omap (keepMatching matcher) m.
Proof.
  unfold filterFiles.
  enough (∀ acc : FilesByProject,
            NoDup (JsMap.keys acc ++ JsMap.keys m) →
            foldl (λ filesToRunByProject '(project, files),
                     let filteredFiles :=
                       match matcher with
                       | Some matcher => List.filter matcher files
                       | None => files
                       end in
                     if bool_decide (filteredFiles = []) then filesToRunByProject
                     else JsMap.set filesToRunByProject project filteredFiles)
                  acc m
            = acc ++ omap (keepMatching matcher) m) as H by (intros; by apply H).
  unfold JsMap.keys. induction m as [|[p files] m IH]; intros acc Hnd; simpl.
  - by rewrite app_nil_r.
  - unfold keepMatching at 1. simpl. unfold matchingFiles at 1.
    set (ff := match matcher with
               | Some matcher => List.filter matcher files
               | None => files
               end).
    rewrite fmap_cons, cons_middle, (assoc_L (++)) in Hnd. simpl in Hnd.
    destruct ff as [|f0 ff0] eqn:Hff.
    + rewrite bool_decide_true by done. apply IH.
      apply NoDup_app in Hnd as (Hnd & Hdis & Hm).
      apply NoDup_app. split_and!; [by apply NoDup_app in Hnd as (? & _ & _)| |done].
      intros x Hx. apply Hdis, elem_of_app. by left.
    + rewrite bool_decide_false by done.
      rewrite JsMap_set_notin.
      * rewrite IH; [by rewrite <-(assoc_L (++))|].
        by rewrite fmap_app.
      * apply NoDup_app in Hnd as (Hnd & _ & _).
        apply NoDup_app in Hnd as (_ & Hdis & _).
        intros Hin. apply (Hdis _ Hin). left.
Qed.

Lemma elem_of_deleteAll m ps (entry : FullProjectInternal * list string) :
  entry ∈ deleteAll m ps ↔ entry ∈ m ∧ entry.1 ∉ ps.
Proof.
  unfold deleteAll. revert m. induction ps as [|p ps IH]; intros m; simpl.
  - rewrite elem_of_nil. tauto.
  - rewrite IH. unfold JsMap.delete. rewrite list_elem_of_filter, not_elem_of_cons.
    tauto.
Qed.

Lemma deleteAll_sublist m ps : deleteAll m ps `sublist_of` m.
Proof.
  unfold deleteAll. revert m. induction ps as [|p ps IH]; intros m; simpl; [done|].
  etrans; [apply IH|]. apply sublist_filter.
Qed.

(** X3.  The map of line 65 holds, in the order of the initial collection,
    projects with a non-empty list of files: the files of the project's
    collected list that the command-line file matcher accepts, all of
    them when there is no file filter.  None of its projects is among
    the dependencies of the projects that have matching files.  Its
    projects are the top-level projects, unless a shard narrows them
    further. *)
Theorem top_level_files_match_and_exclude_dependencies config options r :
  resolveFiles config options = Returned r →
  let matcher := commandLineFileMatcher options in
  let filtered := filterFiles matcher (allFilesForProject r) in
  let m0 := shardInput options (allFilesForProject r) in
  topLevelProjects r =
    JsMap.keys (match shard config with
                | Some s => filterForShard s m0
                | None => m0
                end) ∧
  (JsMap.keys m0 `sublist_of` JsMap.keys (allFilesForProject r)) ∧
  ∀ p files, (p, files) ∈ m0 →
    files ≠ [] ∧
    (p ∉ projectsThatAreDependencies (JsMap.keys filtered)) ∧
    ∃ collected,
      JsMap.get (allFilesForProject r) p = Some collected ∧
      files = matchingFiles matcher collected.
Proof.
  unfold resolveFiles.
  intros (selected & Hsel & H)%Outcome_bind_Returned.
  apply Outcome_bind_Returned in H as ([allFiles c] & Hall & H).
  apply Outcome_bind_Returned in H as (m' & Hdeps & [= <-]). simpl.
  assert (NoDup (JsMap.keys allFiles)) as Hnd.
  { eapply collectAllFiles_NoDup; [exact Hall|]. apply NoDup_nil_2. }
  fold (commandLineFileMatcher options).
  split_and!.
  - done.
  - unfold shardInput. etrans.
    + apply fmap_sublist, deleteAll_sublist.
    + rewrite filterFiles_omap by done. unfold JsMap.keys.
      clear. induction allFiles as [|[p files] m IH]; simpl; [done|].
      destruct (keepMatching _ (p, files)) as [e|] eqn:He; simpl.
      * apply keepMatching_key in He. simpl in He. rewrite He.
        by apply sublist_skip.
      * by apply sublist_cons.
  - intros p files [Hin Hni]%elem_of_deleteAll. simpl in Hni.
    rewrite filterFiles_omap in Hin by done.
    apply list_elem_of_omap in Hin as ([q collected] & Hq & Hkeep).
    unfold keepMatching in Hkeep. simpl in Hkeep.
    destruct (matchingFiles _ collected) as [|f ff] eqn:Hff; [done|].
    injection Hkeep as <- <-. split_and!; [done|done|].
    exists collected. split; [|done]. by apply JsMap_get_elem.
Qed.
End ResolutionFacts.

Section RunFacts.
Context {TestFileFilter Shard FsCache LoaderHost : Type}.
Context {imports : Imports TestFileFilter Shard FsCache LoaderHost}.

Implicit Types (config : FullConfigInternal Shard)
               (options : LoadOptions TestFileFilter)
               (r : Resolved) (w : World)
               (m : FilesByProject).

(** *** The file lists are there when the suites are composed *)

Lemma resolveFiles_has_file_lists config options r p :
  resolveFiles config options = Returned r →
  p ∈ topLevelProjects r ∨ p ∈ dependencyProjects r →
  is_Some (JsMap.get (filesToRunByProject r) p).
Proof.
  unfold resolveFiles.
  intros (selected & Hsel & H)%Outcome_bind_Returned.
  apply Outcome_bind_Returned in H as ([allFiles c] & Hall & H).
  apply Outcome_bind_Returned in H as (m' & Hdeps & [= <-]). simpl.
  destruct (addDependencyFiles_spec _ _ _ _ _ Hdeps p) as [Hin Hout].
  intros Hp.
  destruct (decide (p ∈ projectsThatAreDependencies
                          (JsMap.keys
                             match shard config with
                             | Some s =>
                                 filterForShard s
                                   (shardInput options allFiles)
                             | None => shardInput options allFiles
                             end))) as [Hdep|Hndep].
  - destruct (Hin Hdep) as (files & -> & _). by eexists.
  - destruct Hp as [Htop|Hdep]; [|done].
    rewrite (Hout Hndep). by apply JsMap_get_is_Some.
Qed.

Lemma attachProjectSuites_returns attach fileSuits options m
    (rootSuite : Suite) ps :
  (∀ p, p ∈ ps → is_Some (JsMap.get m p)) →
  ∃ rootSuite',
    attachProjectSuites attach fileSuits options m rootSuite ps
    = Returned rootSuite'.
Proof.
  revert rootSuite. induction ps as [|p ps IH]; intros rootSuite Hps; simpl.
  - by eexists.
  - destruct (Hps p ltac:(left)) as [files Hfiles].
    unfold attachProjectSuite. rewrite Hfiles.
    destruct (createProjectSuite fileSuits p options files); simpl;
      apply IH; intros q Hq; apply Hps; by right.
Qed.

Lemma assembleRoot_returns config options r fileSuits w :
  resolveFiles config options = Returned r →
  ∃ root w', assembleRoot config options r fileSuits w = (Returned root, w').
Proof.
  intros Hr. unfold assembleRoot, mbind, Run_bind, errors_push, lift.
  destruct (attachProjectSuites_returns _addSuite fileSuits options
              (filesToRunByProject r) (newSuite EmptyString TRoot)
              (topLevelProjects r)) as [topRoot Htop].
  { intros p Hp. eapply resolveFiles_has_file_lists; eauto. }
  fold (composeTopLevel options r fileSuits) in Htop. rewrite Htop.
  destruct (complainAboutOnly config topRoot
              {| errors := errors w ++ createDuplicateTitlesErrors config fileSuits;
                 calls := calls w |}) as [o w2] eqn:Hc.
  apply complainAboutOnly_inv in Hc as (-> & _ & _).
  destruct (attachProjectSuites_returns _prependSuite fileSuits
              (dependencyOptions options) (filesToRunByProject r)
              (filterOnly topRoot) (dependencyProjects r)) as [root Hroot].
  { intros p Hp. eapply resolveFiles_has_file_lists; eauto. }
  fold (prependDependencies options r fileSuits (filterOnly topRoot)) in Hroot.
  rewrite Hroot. by eexists _, _.
Qed.

(** X1.  A run returns a root suite exactly when the first block, which
    selects the projects and collects the files, returns and loading the
    files, [stop()] included, returns.  Composing the
    suites never fails: every top-level and every dependency project has
    a file list when [filesToRunByProject.get(project)!] is read. *)
Theorem loadAllTests_returns_iff_files_load config options w :
  (∃ root w', loadAllTests config options w = (Returned root, w')) ↔
  (∃ r fileSuits w1,
     resolveFiles config options = Returned r ∧
     loadFileSuites config (filesToRunByProject r) w
     = (Returned fileSuits, w1)).
Proof.
  split.
  - intros (root & w' & Hrun).
    apply loadAllTests_Returned in Hrun
      as (r & fileSuits & w1 & topRoot & (Hr & Hload & _) & _).
    eauto.
  - intros (r & fileSuits & w1 & Hr & Hload).
    destruct (assembleRoot_returns config options r fileSuits w1 Hr)
      as (root & w' & Hroot).
    exists root, w'. unfold loadAllTests, mbind, Run_bind, lift.
    by rewrite Hr, Hload.
Qed.

(** *** The file suites *)

Lemma loadEach_suites (loaderHost loaderHost' : LoaderHost) fs acc w suites w' :
  loadEach loaderHost fs acc w = (Returned (suites, loaderHost'), w') →
  ∃ new, suites = acc ++ new ∧
         Forall2 (λ file fileSuite,
                    ∃ host errs,
                      (loadTestFile host file errs).1.1 = Returned fileSuite)
                 fs new.
Proof.
  revert loaderHost acc w. induction fs as [|f fs IH]; intros h acc w; simpl.
  - intros [= <- _ _]. exists []. by rewrite app_nil_r.
  - intros ([s h1] & w1 & Hcall & Hrest)%Run_bind_Returned.
    destruct (IH _ _ _ Hrest) as (new & -> & Hnew).
    exists (s :: new). split; [by rewrite <-(assoc_L (++))|].
    constructor; [|done].
    unfold call_loadTestFile in Hcall.
    destruct (loadTestFile h f (errors w)) as [[[s'|e] errs] h2] eqn:Hl;
      [|done].
    injection Hcall as <- _ _. exists h, (errors w). by rewrite Hl.
Qed.

(** X4.  Loading returns one file suite per file to load, in the order of
    the files: the suite at an index is the one [loadTestFile] returned
    for the file at that index. *)
Theorem one_file_suite_per_file config m w fileSuits w' :
  loadFileSuites config m w = (Returned fileSuits, w') →
  length fileSuits = length (allTestFiles m) ∧
  Forall2 (λ file fileSuite,
             ∃ host errs,
               (loadTestFile host file errs).1.1 = Returned fileSuite)
          (allTestFiles m) fileSuits.
Proof.
  unfold loadFileSuites.
  intros ([suites h] & w1 & Hload & Hstop)%Run_bind_Returned.
  apply Run_bind_Returned in Hstop as ([] & w2 & _ & [= <- _]).
  apply loadEach_suites in Hload as (new & -> & Hnew). simpl.
  split; [|done]. symmetry. by eapply Forall2_length.
Qed.

(** X5.  When no file occurs twice in the file lists, the files to load are
    the lists of the projects one after the other, in the order of the
    map. *)
Theorem allTestFiles_without_sharing m :
  NoDup (List.concat (JsMap.values m)) →
  allTestFiles m = List.concat (JsMap.values m).
Proof.
  unfold allTestFiles. generalize (JsMap.values m). intros ls.
  enough (∀ acc : list string,
            NoDup (acc ++ List.concat ls) →
            foldl JsSet.addAll acc ls = acc ++ List.concat ls) as H
    by (intros; by apply (H [])).
  induction ls as [|files ls IH]; intros acc Hnd; simpl in *.
  - by rewrite app_nil_r.
  - rewrite (assoc_L (++)) in Hnd |- *. rewrite <-(JsSet_addAll_fresh acc files).
    + apply IH. rewrite JsSet_addAll_fresh; [done|].
      by apply NoDup_app in Hnd as (? & _ & _).
    + by apply NoDup_app in Hnd as (? & _ & _).
Qed.

(** *** Options that are not read *)

Lemma attachProjectSuites_ext attach fileSuits options options' m
    (rootSuite : Suite) ps :
  (∀ p files, createProjectSuite fileSuits p options files
              = createProjectSuite fileSuits p options' files) →
  attachProjectSuites attach fileSuits options m rootSuite ps
  = attachProjectSuites attach fileSuits options' m rootSuite ps.
Proof.
  intros Hext. revert rootSuite.
  induction ps as [|p ps IH]; intros rootSuite; simpl; [done|].
  unfold attachProjectSuite. destruct (JsMap.get m p) as [files|]; [|done].
  rewrite Hext. destruct (createProjectSuite _ _ _ _); simpl; apply IH.
Qed.

(** X6.  [loadAllTests] reads [testFileFilters], [testTitleMatcher] and
    [projectFilter] only: [listOnly] and [passWithNoTests] change nothing
    in a run. *)
Theorem listOnly_and_passWithNoTests_are_not_read config options options' w :
  testFileFilters options = testFileFilters options' →
  testTitleMatcher options = testTitleMatcher options' →
  projectFilter options = projectFilter options' →
  loadAllTests config options w = loadAllTests config options' w.
Proof.
  destruct options as [l fs tm pf pw], options' as [l' fs' tm' pf' pw'].
  simpl. intros -> -> ->.
  set (o := {| listOnly := l; testFileFilters := fs'; testTitleMatcher := tm';
               projectFilter := pf'; passWithNoTests := pw |}).
  set (o' := {| listOnly := l'; testFileFilters := fs'; testTitleMatcher := tm';
                projectFilter := pf'; passWithNoTests := pw' |}).
  assert (∀ r fileSuits, composeTopLevel o r fileSuits
                         = composeTopLevel o' r fileSuits) as Htop.
  { intros. by apply attachProjectSuites_ext. }
  assert (∀ r fileSuits rootSuite,
            prependDependencies o r fileSuits rootSuite
            = prependDependencies o' r fileSuits rootSuite) as Hdep.
  { intros. by apply attachProjectSuites_ext. }
  unfold loadAllTests, mbind, Run_bind, lift.
  change (resolveFiles config o') with (resolveFiles config o).
  destruct (resolveFiles config o) as [r|e]; [|done].
  destruct (loadFileSuites config (filesToRunByProject r) w)
    as [[fileSuits|e] w1]; [|done].
  unfold assembleRoot, mbind, Run_bind, lift, errors_push.
  rewrite Htop. destruct (composeTopLevel o' r fileSuits) as [topRoot|e]; [|done].
  destruct (complainAboutOnly config topRoot _) as [[[]|e] w2]; [|done].
  by rewrite Hdep.
Qed.

End RunFacts.

Section ValidationFacts.
Context {TestFileFilter Shard FsCache LoaderHost : Type}.
Context {imports : Imports TestFileFilter Shard FsCache LoaderHost}.

Implicit Types (config : FullConfigInternal Shard)
               (options : LoadOptions TestFileFilter)
               (tests : list TestCase)
               (testsByFullTitle : gmap string TestCase)
               (errs : list TestError).

(** *** Duplicate titles *)

Lemma duplicateTitlesStep_eq config testsByFullTitle errs test :
  duplicateTitlesStep config (testsByFullTitle, errs) test =
  (<[fullTitle test := test]> testsByFullTitle,
   match testsByFullTitle !! fullTitle test with
   | Some existingTest => errs ++ [duplicateTitleError config existingTest test]
   | None => errs
   end).
Proof. done. Qed.

(** The errors a file adds do not depend on the errors found so far. *)
Lemma duplicateTitles_fold_errors config testsByFullTitle errs tests :
  foldl (duplicateTitlesStep config) (testsByFullTitle, errs) tests =
  ((foldl (duplicateTitlesStep config) (testsByFullTitle, []) tests).1,
   errs ++ (foldl (duplicateTitlesStep config) (testsByFullTitle, []) tests).2).
Proof.
  revert testsByFullTitle errs.
  induction tests as [|t tests IH]; intros m errs; cbn [foldl].
  - by rewrite app_nil_r.
  - rewrite !duplicateTitlesStep_eq.
    destruct (m !! fullTitle t) as [existing|]; [|by apply IH].
    rewrite IH. rewrite (IH _ ([] ++ _)). simpl.
    by rewrite <-(assoc_L (++)).
Qed.

Lemma size_list_to_set_NoDup (l : list string) :
  (size (list_to_set l : gset string) ≤ length l)%nat ∧
  (size (list_to_set l : gset string) = length l → NoDup l).
Proof.
  induction l as [|x l [IHle IHnd]].
  - rewrite list_to_set_nil, size_empty. split; [done|constructor].
  - rewrite list_to_set_cons. simpl.
    destruct (decide (x ∈ l)) as [Hin|Hni].
    + replace ({[x]} ∪ list_to_set l : gset string)
        with (list_to_set l : gset string) by set_solver.
      split; lia.
    + rewrite size_union, size_singleton by set_solver.
      split; [lia|]. intros Hsize. constructor; [done|]. apply IHnd. lia.
Qed.

Lemma createDuplicateTitlesErrors_snoc config fileSuites (fileSuite : Suite) :
  createDuplicateTitlesErrors config (fileSuites ++ [fileSuite]) =
  createDuplicateTitlesErrors config fileSuites ++
  createDuplicateTitlesErrors config [fileSuite].
Proof.
  unfold createDuplicateTitlesErrors. rewrite foldl_snoc. simpl.
  by rewrite duplicateTitles_fold_errors.
Qed.

(** X7.  Duplicate titles are looked for in each file on its own: the errors
    of a list of file suites are the errors of each file suite, one file
    after the other, and a title that two files share is no duplicate. *)
Theorem duplicate_titles_are_per_file config (fileSuites fileSuites' : list Suite) :
  createDuplicateTitlesErrors config (fileSuites ++ fileSuites') =
  createDuplicateTitlesErrors config fileSuites ++
  createDuplicateTitlesErrors config fileSuites'.
Proof.
  induction fileSuites' as [|fileSuite fileSuites' IH] using rev_ind.
  - by rewrite !app_nil_r.
  - rewrite (assoc_L (++)), !createDuplicateTitlesErrors_snoc, IH.
    by rewrite <-(assoc_L (++)).
Qed.

(** Each test either files a new title or adds one error. *)
Lemma duplicateTitles_fold_count config testsByFullTitle errs tests :
  let result :=
    foldl (duplicateTitlesStep config) (testsByFullTitle, errs) tests in
  dom result.1 = dom testsByFullTitle ∪ list_to_set (fullTitle <$> tests) ∧
  (length result.2 + size (dom result.1) =
   length errs + size (dom testsByFullTitle) + length tests)%nat.
Proof.
  revert testsByFullTitle errs.
  induction tests as [|t tests IH]; intros m errs; cbn [foldl].
  - simpl. split; [set_solver|lia].
  - rewrite duplicateTitlesStep_eq.
    destruct (IH (<[fullTitle t := t]> m)
                 (match m !! fullTitle t with
                  | Some existingTest =>
                      errs ++ [duplicateTitleError config existingTest t]
                  | None => errs
                  end)) as [Hdom Hcount].
    simpl in Hdom, Hcount. split.
    + rewrite Hdom, dom_insert_L. set_solver.
    + rewrite Hcount, dom_insert_L.
      destruct (m !! fullTitle t) as [existing|] eqn:Hm.
      * rewrite length_app. simpl.
        replace ({[fullTitle t]} ∪ dom m) with (dom m); [lia|].
        apply elem_of_dom_2 in Hm. set_solver.
      * rewrite size_union, size_singleton; [simpl; lia|].
        apply not_elem_of_dom in Hm. set_solver.
Qed.

(** X8.  A file gets one duplicate-title error for every test beyond the
    first of each full title: the errors and the distinct titles of a
    file add up to its tests.  There is no error exactly when the titles
    of the file are pairwise distinct. *)
Theorem duplicate_errors_count config (fileSuite : Suite) :
  let titles := fullTitle <$> allTests fileSuite in
  (length (createDuplicateTitlesErrors config [fileSuite]) +
   size (list_to_set titles : gset string) = length titles)%nat ∧
  (createDuplicateTitlesErrors config [fileSuite] = [] ↔ NoDup titles).
Proof.
  simpl. unfold createDuplicateTitlesErrors. simpl.
  destruct (duplicateTitles_fold_count config ∅ [] (allTests fileSuite))
    as [Hdom Hcount].
  simpl in Hdom, Hcount. rewrite Hdom, dom_empty_L, size_empty in Hcount.
  rewrite (left_id_L ∅ (∪)) in Hcount. rewrite length_fmap.
  split; [lia|].
  rewrite <-length_zero_iff_nil.
  set (titles := fullTitle <$> allTests fileSuite) in *.
  assert (length titles = length (allTests fileSuite)) as Hlen
    by apply length_fmap.
  split.
  - intros Hnone. apply size_list_to_set_NoDup. lia.
  - intros Hnd. rewrite size_list_to_set in Hcount by done. lia.
Qed.

(** A title stays filed under the test that declared it last. *)
Lemma duplicateTitles_fold_lookup config testsByFullTitle errs tests title :
  (∀ t, t ∈ tests → fullTitle t ≠ title) →
  (foldl (duplicateTitlesStep config) (testsByFullTitle, errs) tests).1 !! title
  = testsByFullTitle !! title.
Proof.
  revert testsByFullTitle errs.
  induction tests as [|t tests IH]; intros m errs Hne; cbn [foldl]; [done|].
  rewrite duplicateTitlesStep_eq, IH.
  - apply lookup_insert_ne, Hne. left.
  - intros t' Ht'. apply Hne. by right.
Qed.

(** X9.  The error for a repeated title names the nearest earlier test with
    that title: when [earlier] and [test] have the same full title and no
    test between them has it, the errors of the file hold the error
    located at [test] that says the title was first declared at the
    location of [earlier], whether or not the title was declared before
    [earlier] as well. *)
Theorem duplicate_error_names_nearest_earlier_test config (fileSuite : Suite)
    before earlier between test after :
  allTests fileSuite = before ++ earlier :: between ++ test :: after →
  fullTitle earlier = fullTitle test →
  (∀ t, t ∈ between → fullTitle t ≠ fullTitle test) →
  ∃ errorsBefore errorsAfter,
    createDuplicateTitlesErrors config [fileSuite] =
    errorsBefore ++
    {| message :=
         "Error: duplicate test title " +:+ dquote +:+ fullTitle test +:+
         dquote +:+ ", first declared in " +:+
         path_relative (rootDir config) (file (test_location earlier)) +:+
         ":" +:+ pretty (line (test_location earlier));
       location := Some (test_location test) |} :: errorsAfter.
Proof.
  intros Htests Hsame Hbetween.
  unfold createDuplicateTitlesErrors. cbn [foldl]. rewrite Htests.
  rewrite foldl_app. cbn [foldl].
  destruct (foldl (duplicateTitlesStep config) (∅, []) before) as [m0 errs0].
  rewrite duplicateTitlesStep_eq, foldl_app. cbn [foldl].
  set (errs1 := match m0 !! fullTitle earlier with
                | Some existingTest =>
                    errs0 ++ [duplicateTitleError config existingTest earlier]
                | None => errs0
                end).
  pose proof (duplicateTitles_fold_lookup config
                (<[fullTitle earlier := earlier]> m0) errs1 between
                (fullTitle test) Hbetween) as Hlookup.
  rewrite <-Hsame in Hlookup. rewrite lookup_insert_eq in Hlookup.
  destruct (foldl (duplicateTitlesStep config)
              (<[fullTitle earlier := earlier]> m0, errs1) between)
    as [m2 errs2].
  simpl in Hlookup. rewrite duplicateTitlesStep_eq.
  replace (m2 !! fullTitle test) with (Some earlier) by (by rewrite <-Hsame).
  rewrite duplicateTitles_fold_errors. simpl.
  exists errs2. eexists. rewrite <-(assoc_L (++)). done.
Qed.

(** *** The project suite before filtering *)

Lemma fileSuitesMap_lookup (fileSuits : list Suite) file :
  foldl (λ (m : gmap string Suite) fileSuite,
           <[_requireFile fileSuite := fileSuite]> m) ∅ fileSuits !! file
  = fileSuiteFor fileSuits file.
Proof.
  unfold fileSuiteFor.
  induction fileSuits as [|fileSuite fileSuits IH] using rev_ind; [done|].
  rewrite foldl_snoc, filter_app, filter_cons, filter_nil.
  destruct (decide (_requireFile fileSuite = file)) as [->|Hne].
  - by rewrite lookup_insert_eq, last_snoc.
  - by rewrite lookup_insert_ne, app_nil_r.
Qed.

Lemma addBuiltSuites_entries (projectSuite : Suite) (built : list Suite) :
  foldl _addSuite projectSuite built =
  with_entries projectSuite (_entries projectSuite ++ (inl <$> built)).
Proof.
  revert projectSuite.
  induction built as [|b built IH]; intros [t ty rf pc pm o es]; simpl.
  - unfold with_entries. simpl. by rewrite app_nil_r.
  - rewrite IH. unfold with_entries, _addSuite. simpl.
    by rewrite <-(assoc_L (++)).
Qed.

(** X10.  Before it is filtered, the suite of a project carries the name of
    the project as title, the project as configuration and the parallel
    mode [parallel] exactly for a fully parallel project; its children
    are, file by file in the order of the file list, the suites built for
    the repeat indices from 0 up to [repeatEach] (excluded).  A file for
    which no suite was loaded contributes nothing, and when several
    loaded suites were required from the same file, the last one is
    built. *)
Theorem unfilteredProjectSuite_children (fileSuits : list Suite)
    (project : FullProjectInternal) (files : list string) :
  let projectSuite := unfilteredProjectSuite fileSuits project files in
  title projectSuite = name project ∧
  _type projectSuite = TProject ∧
  _projectConfig projectSuite = Some project ∧
  _parallelMode projectSuite =
    (if _fullyParallel project then PMparallel else PMdefault) ∧
  _entries projectSuite =
    (inl <$> (files ≫= builtSuites fileSuits project)) ∧
  length (_entries projectSuite) =
    (repeatEach project *
     length (filter (λ file, is_Some (fileSuiteFor fileSuits file)) files))%nat.
Proof.
  simpl. unfold unfilteredProjectSuite.
  set (start := if _fullyParallel project then _ else _).
  assert (∀ (projectSuite : Suite),
            foldl (λ projectSuite file,
                     match foldl (λ (m : gmap string Suite) fileSuite,
                                    <[_requireFile fileSuite := fileSuite]> m)
                                 ∅ fileSuits !! file with
                     | None => projectSuite
                     | Some fileSuite =>
                         foldl (λ projectSuite repeatEachIndex,
                                  _addSuite projectSuite
                                    (buildFileSuiteForProject project fileSuite
                                       repeatEachIndex))
                               projectSuite (seq 0 (repeatEach project))
                     end)
                  projectSuite files
            = with_entries projectSuite
                (_entries projectSuite ++
                 (inl <$> (files ≫= builtSuites fileSuits project)))) as Hfold.
  { induction files as [|f files IH]; intros [t ty rf pc pm o es].
    - unfold with_entries. simpl. by rewrite app_nil_r.
    - cbn [foldl]. rewrite fileSuitesMap_lookup, bind_cons.
      change (builtSuites fileSuits project f)
        with (match fileSuiteFor fileSuits f with
              | Some fileSuite =>
                  buildFileSuiteForProject project fileSuite
                  <$> seq 0 (repeatEach project)
              | None => []
              end).
      destruct (fileSuiteFor fileSuits f) as [fileSuite|].
      + rewrite <-(foldl_fmap _addSuite), addBuiltSuites_entries, IH.
        unfold with_entries. simpl.
        by rewrite fmap_app, (assoc_L (++)).
      + by rewrite IH. }
  rewrite Hfold. unfold with_entries. simpl.
  assert (length (files ≫= builtSuites fileSuits project) =
          (repeatEach project *
           length (filter (λ file, is_Some (fileSuiteFor fileSuits file)) files))%nat)
    as Hlen.
  { clear. induction files as [|f files IH]; [simpl; lia|].
    rewrite bind_cons, length_app, IH, filter_cons.
    change (builtSuites fileSuits project f)
      with (match fileSuiteFor fileSuits f with
            | Some fileSuite =>
                buildFileSuiteForProject project fileSuite
                <$> seq 0 (repeatEach project)
            | None => []
            end).
    destruct (fileSuiteFor fileSuits f) as [fileSuite|].
    - rewrite decide_True by done. rewrite length_fmap, length_seq. simpl. lia.
    - rewrite decide_False by (by intros [? ?]). simpl. done. }
  subst start. destruct (_fullyParallel project); simpl;
    rewrite length_fmap, Hlen; done.
Qed.
End ValidationFacts.

(** ** Properties of loading a hook or a reporter *)

Section HookLoadingFacts.
Context {Shard : Type} {moduleImports : ModuleImports}.

Implicit Types (config : FullConfigInternal Shard) (v exported : JsValue).

Lemma typeof_function v : typeof v = TFunction ↔ ∃ f, v = JsFunction f.
Proof.
  split; [|by intros [f ->]]. destruct v; try done. eauto.
Qed.

Lemma requireOrImportDefaultFunction_Returned file expectConstructor v :
  requireOrImportDefaultFunction file expectConstructor = Returned v ↔
  typeof v = TFunction ∧
  ∃ exported,
    requireOrImport file = Returned exported ∧
    (exported = v ∨
     ∃ properties, exported = JsObject properties ∧
                   JsMap.get properties "default" = Some v).
Proof.
  unfold requireOrImportDefaultFunction. split.
  - intros (exported & Hload & H)%Outcome_bind_Returned.
    destruct exported as [| |b|n|s|f|properties]; simpl in H;
      rewrite ?andb_false_r in H; simpl in H; try done.
    + injection H as <-. split; [done|]. eauto.
    + destruct (JsMap.get properties "default") as [d|] eqn:Hd.
      * rewrite (bool_decide_true (is_Some (Some d))) in H by (by eexists).
        simpl in H.
        case_bool_decide as Hty; [done|]. injection H as <-.
        split; [done|]. eauto 6.
      * rewrite (bool_decide_false (is_Some None)) in H by (by intros [? ?]).
        simpl in H. done.
  - intros [[f ->]%typeof_function (exported & -> & Hshape)]. simpl.
    destruct Hshape as [->|(properties & -> & Hd)]; simpl; [done|].
    by rewrite Hd, (bool_decide_true (is_Some (Some _))) by (by eexists).
Qed.

(** X11.  What [loadGlobalHook] returns is a function, and it is either what
    the file, resolved against the root directory, exports or the
    property [default] of the object the file exports: a file is accepted
    exactly in these two shapes.  Only one [default] is looked through,
    and a function is returned as it is even if it has properties. *)
Theorem loadGlobalHook_returns_iff config file v :
  loadGlobalHook config file = Returned v ↔
  typeof v = TFunction ∧
  ∃ exported,
    requireOrImport (path_resolve (rootDir config) file) = Returned exported ∧
    (exported = v ∨
     ∃ properties, exported = JsObject properties ∧
                   JsMap.get properties "default" = Some v).
Proof. apply requireOrImportDefaultFunction_Returned. Qed.

(** X12.  Asking for a class or for a function makes no difference to what is
    accepted: [loadReporter] returns a value exactly when [loadGlobalHook]
    returns it for the same file, so a reporter file that exports a
    plain function is accepted. *)
Theorem reporter_and_hook_accept_the_same config file v :
  loadReporter config file = Returned v ↔ loadGlobalHook config file = Returned v.
Proof.
  unfold loadReporter, loadGlobalHook.
  by rewrite !requireOrImportDefaultFunction_Returned.
Qed.

(** X13.  When the file loads but is not accepted, the error is the one
    [errorWithFile] makes for the resolved path, with a message that asks
    for a single function from [loadGlobalHook] and for a single class
    from [loadReporter]. *)
Theorem export_shape_error_names_file_and_kind config file exported :
  requireOrImport (path_resolve (rootDir config) file) = Returned exported →
  (∀ v, loadGlobalHook config file ≠ Returned v) →
  loadGlobalHook config file =
    Thrown (errorWithFile (path_resolve (rootDir config) file)
              "file must export a single function.") ∧
  loadReporter config file =
    Thrown (errorWithFile (path_resolve (rootDir config) file)
              "file must export a single class.").
Proof.
  unfold loadGlobalHook, loadReporter, requireOrImportDefaultFunction.
  intros -> Hrejected. simpl in *.
  case_bool_decide; [done|]. by destruct (Hrejected _ eq_refl).
Qed.
End HookLoadingFacts.

(** ** The further properties on the worked configuration *)

Section ScenarioMoreFacts.
Import Scenario ScenarioModules.

(** X3 on the worked configuration.
    The top-level projects of the worked configuration are [e2e] and
    [smoke], each with the files collected for it. *)
Lemma top_level_files_witness :
  resolveFiles (imports := imports) (config true) (options None)
  = Returned resolved ∧
  topLevelProjects resolved = [e2e; smoke] ∧
  ∀ p files,
    (p, files) ∈ shardInput (imports := imports) (options None)
                   (allFilesForProject resolved) →
    files ≠ [].
Proof.
  split; [exact Scenario_resolved|].
  destruct (top_level_files_match_and_exclude_dependencies
              (config true) (options None) resolved Scenario_resolved)
    as (Htop & _ & Hfiles).
  split; [reflexivity|].
  intros p files Hin. exact (proj1 (Hfiles p files Hin)).
Defined.

(** X4 on the worked configuration.
    Four files are loaded in the worked configuration and four file
    suites come back. *)
Lemma one_file_suite_per_file_witness :
  loadFileSuites (imports := imports) (config true)
    (filesToRunByProject resolved) start
  = (Returned loadedSuites, loaded.2) ∧
  length loadedSuites = length (allTestFiles (filesToRunByProject resolved)).
Proof.
  split; [exact Scenario_loaded|].
  exact (proj1 (one_file_suite_per_file (config true)
                  (filesToRunByProject resolved) start loadedSuites loaded.2
                  Scenario_loaded)).
Defined.

(** X5 on the worked configuration.
    With only [e2e] selected no file is shared, and the files load in the
    order of the lists of [e2e], [db] and [auth]. *)
Lemma allTestFiles_without_sharing_witness :
  NoDup (List.concat (JsMap.values (filesToRunByProject resolvedForE2e))) ∧
  allTestFiles (filesToRunByProject resolvedForE2e) =
  ["a.spec.ts"; "b.spec.ts"; "db.setup.ts"; "auth.setup.ts"].
Proof.
  assert (NoDup (List.concat
                   (JsMap.values (filesToRunByProject resolvedForE2e)))) as Hnd.
  { apply (bool_decide_unpack
             (NoDup (List.concat
                       (JsMap.values (filesToRunByProject resolvedForE2e))))).
    vm_compute. exact I. }
  split; [exact Hnd|].
  exact (allTestFiles_without_sharing (filesToRunByProject resolvedForE2e) Hnd).
Defined.

(** X6 on the worked configuration.
    Listing with [passWithNoTests] runs as the plain options do. *)
Lemma listOnly_not_read_witness :
  testFileFilters listingOptions = testFileFilters (options None) ∧
  testTitleMatcher listingOptions = testTitleMatcher (options None) ∧
  projectFilter listingOptions = projectFilter (options None) ∧
  loadAllTests (imports := imports) (config true) listingOptions start
  = loadAllTests (imports := imports) (config true) (options None) start.
Proof.
  split_and!; [reflexivity..|].
  exact (listOnly_and_passWithNoTests_are_not_read (config true)
           listingOptions (options None) start eq_refl eq_refl eq_refl).
Defined.

(** X9 on the worked configuration.
    In the file with three declarations of one title, the error for the
    declaration of line 13 names line 8. *)
Lemma duplicate_error_nearest_witness :
  allTests triple_spec =
    [test ["t.spec.ts"; "suite A"; "does X"] 3 false] ++
    test ["t.spec.ts"; "suite A"; "does X"] 8 false ::
    [] ++ test ["t.spec.ts"; "suite A"; "does X"] 13 false :: [] ∧
  ∃ errorsBefore errorsAfter,
    createDuplicateTitlesErrors (imports := imports) (config true)
      [triple_spec] =
    errorsBefore ++
    {| message :=
         "Error: duplicate test title " +:+ dquote +:+ "suite A › does X" +:+
         dquote +:+ ", first declared in t.spec.ts:8";
       location := Some {| file := "t.spec.ts"; line := 13; column := 1 |} |}
    :: errorsAfter.
Proof.
  split; [reflexivity|].
  exact (duplicate_error_names_nearest_earlier_test (imports := imports)
           (config true) triple_spec
           [test ["t.spec.ts"; "suite A"; "does X"] 3 false]
           (test ["t.spec.ts"; "suite A"; "does X"] 8 false) []
           (test ["t.spec.ts"; "suite A"; "does X"] 13 false) []
           eq_refl eq_refl
           (λ t Hin, False_ind _ (proj1 (elem_of_nil t) Hin))).
Defined.

(** X13 on the worked configuration.
    The data file of the worked configuration loads but exports no
    function. *)
Lemma export_shape_error_witness :
  requireOrImport "/repo/data.js"
  = Returned (JsObject [("name", JsString "data")]) ∧
  (∀ v, loadGlobalHook (moduleImports := moduleImports) (config true) "data.js"
        ≠ Returned v) ∧
  loadReporter (moduleImports := moduleImports) (config true) "data.js" =
  Thrown "/repo/data.js: file must export a single class.".
Proof.
  assert (∀ v, loadGlobalHook (moduleImports := moduleImports) (config true)
                 "data.js" ≠ Returned v) as Hrejected.
  { intros v H. vm_compute in H. discriminate H. }
  split_and!; [reflexivity|exact Hrejected|].
  exact (proj2 (export_shape_error_names_file_and_kind
                  (moduleImports := moduleImports) (config true) "data.js"
                  (JsObject [("name", JsString "data")]) eq_refl Hrejected)).
Defined.

(** The global setup file exports its function as [default]; the reporter
    file exports its class directly. *)
Example Scenario_hook_and_reporter :
  loadGlobalHook (moduleImports := moduleImports) (config true)
    "global-setup.ts" = Returned (JsFunction "globalSetup") ∧
  loadReporter (moduleImports := moduleImports) (config true) "reporter.js"
  = Returned (JsFunction "MyReporter").
Proof. split; reflexivity. Qed.
End ScenarioMoreFacts.
